(** * Research-progress front end: derivations of the CopilotKit page,
    the Progress log component and the ReportCanvas presenter.

    Embedded sources:
    - [src/app/copilotkit/page.tsx]   (module [Page], progress always shown)
    - the inline page variant         (module [PageGated], progress gated by
                                       the run status)
    - the [Progress] component        (module [ProgressLog])
    - [src/components/ReportCanvas.tsx] (module [Canvas]) *)

From Stdlib Require Import ZArith Ascii String DecimalString.
From stdpp Require Import base option list strings gmap sorting.

Local Open Scope string_scope.
Local Open Scope Z_scope.
Local Open Scope list_scope.

(** ** JavaScript values and string primitives *)

Module Js.

(** A JavaScript string is a sequence of code units; one [ascii] stands for
    one code unit, so [String.length] is the [.length] property. *)

(** Result of a property read on an object literal.  Besides the strings the
    literal stores, a read can reach a member that every object literal
    inherits from [Object.prototype]; [VInherited k] is that member (a
    function, or the prototype object for [__proto__]). *)
Inductive Value : Type :=
  | VString (s : string)
  | VInherited (key : string).

(** Names that resolve through the prototype chain of an object literal. *)
Definition objectPrototypeKeys : list string :=
  [ "constructor"; "toString"; "toLocaleString"; "valueOf";
    "hasOwnProperty"; "isPrototypeOf"; "propertyIsEnumerable";
    "__proto__"; "__defineGetter__"; "__defineSetter__";
    "__lookupGetter__"; "__lookupSetter__" ].

(** [obj[key]]: own properties first, then the prototype chain, otherwise
    [undefined] ([None]). *)
Definition getProperty (obj : gmap string string) (key : string) : option Value :=
  match obj !! key with
  | Some s => Some (VString s)
  | None =>
      if decide (key ∈ objectPrototypeKeys) then Some (VInherited key) else None
  end.

(** Truthiness: the empty string and [undefined] are falsy; non-empty
    strings, functions and objects are truthy. *)
Definition truthyString (s : string) : bool :=
  match s with EmptyString => false | String _ _ => true end.

Definition truthy (v : option Value) : bool :=
  match v with
  | None => false
  | Some (VString s) => truthyString s
  | Some (VInherited _) => true
  end.

(** [v || dflt] for a property read [v] and a string default. *)
Definition orDefault (v : option Value) (dflt : string) : Value :=
  match v with
  | Some x => if truthy v then x else VString dflt
  | None => VString dflt
  end.

(** [s || dflt] for an optional string field ([state?.a?.b || dflt]). *)
Definition orString (s : option string) (dflt : string) : string :=
  match s with
  | Some x => if truthyString x then x else dflt
  | None => dflt
  end.

(** String conversion inside a template literal.  The text of an inherited
    member is the one V8 prints: [__proto__] reads the prototype object,
    [constructor] reads the function named [Object], and every other
    inherited name reads a function of that name.  No derived step ever
    holds such a value. *)
Definition toStringValue (v : Value) : string :=
  match v with
  | VString s => s
  | VInherited k =>
      if String.eqb k "__proto__" then "[object Object]"
      else if String.eqb k "constructor" then "function Object() { [native code] }"
      else "function " +:+ k +:+ "() { [native code] }"
  end.

(** [arr.indexOf(x)]: first position of [x], or [-1]. *)
Fixpoint indexOfFrom (i : Z) (arr : list string) (x : string) : Z :=
  match arr with
  | [] => -1
  | y :: rest => if String.eqb y x then i else indexOfFrom (i + 1) rest x
  end.

Definition indexOf (arr : list string) (x : string) : Z := indexOfFrom 0 arr x.

(** [arr.findIndex(p)]: first position whose element satisfies [p], or [-1]. *)
Definition findIndex {A} (p : A → bool) (arr : list A) : Z :=
  match list_find (λ x, p x = true) arr with
  | Some (i, _) => Z.of_nat i
  | None => -1
  end.

(** [s.split("_")] for a one-character separator. *)
Fixpoint splitOn (sep : ascii) (s : string) : list string :=
  match s with
  | EmptyString => [EmptyString]
  | String c rest =>
      if Ascii.eqb c sep then EmptyString :: splitOn sep rest
      else match splitOn sep rest with
           | [] => [String c EmptyString]
           | w :: ws => String c w :: ws
           end
  end.

(** [parts.join(sep)]. *)
Fixpoint join (sep : string) (parts : list string) : string :=
  match parts with
  | [] => ""
  | [w] => w
  | w :: ws => w +:+ sep +:+ join sep ws
  end.

(** [s.charAt(0)] and [s.slice(1)]. *)
Definition charAt0 (s : string) : string :=
  match s with EmptyString => "" | String c _ => String c EmptyString end.

Definition slice1 (s : string) : string :=
  match s with EmptyString => "" | String _ rest => rest end.

(** [toUpperCase] on the code units a to z; the phase names it is applied
    to consist of these letters and underscores only. *)
Definition upperAscii (c : ascii) : ascii :=
  let n := nat_of_ascii c in
  if ((97 <=? n) && (n <=? 122))%nat then ascii_of_nat (n - 32) else c.

Fixpoint toUpperCase (s : string) : string :=
  match s with
  | EmptyString => EmptyString
  | String c rest => String (upperAscii c) (toUpperCase rest)
  end.

(** Decimal text of an integer inside JSX or a template.  JavaScript
    prints all the digits of an integer below 10^21 in magnitude; from
    there on it switches to exponent form, which this text does not
    follow. *)
Definition numberToString (n : Z) : string :=
  NilZero.string_of_int (Z.to_int n).

End Js.

(** ** Property access that can fail *)

(** [o.f] on a value that may be [null] or [undefined] raises a TypeError;
    [o?.f] is the option bind.  Computations that contain a plain access
    run in [result]. *)
Inductive result (A : Type) : Type :=
  | Ok (a : A)
  | TypeError.
Arguments Ok {A} a.
Arguments TypeError {A}.

Definition access {A B} (o : option A) (f : A → B) : result B :=
  match o with
  | Some a => Ok (f a)
  | None => TypeError
  end.

Definition bindR {A B} (r : result A) (k : A → result B) : result B :=
  match r with
  | Ok a => k a
  | TypeError => TypeError
  end.

Notation "x ←R e ; k" := (bindR e (λ x, k))
  (at level 20, e at level 100, k at level 200, right associativity).

(** [o?.f] when the field [f] is itself optional. *)
Definition chain {A B} (o : option A) (f : A → option B) : option B :=
  match o with
  | Some a => f a
  | None => None
  end.

Notation "o ?. f" := (chain o f) (at level 40, left associativity).

(** ** Data model: the agent state as the front end may receive it *)

(** Every field the code reads through [?.] may be absent, so each is an
    [option]; fields that no derivation reads are left out. *)
Record Source : Type := {
  title : string;
  url : string;
  snippet : option string
}.

Record Status : Type := {
  phase : option string
}.

Record Research : Type := {
  query : option string;
  stage : option string;
  sources_found : option Z;
  sources : option (list Source)
}.

Record Processing : Type := {
  report : option string
}.

Record ResearchAgentState : Type := {
  status : option Status;
  research : option Research;
  processing : option Processing
}.

(** The [initialState] handed to [useCoAgent]. *)
Definition initialState : ResearchAgentState := {|
  status := Some {| phase := Some "idle" |};
  research := Some {| query := Some ""; stage := Some "not_started";
                      sources_found := Some 0; sources := Some [] |};
  processing := Some {| report := None |}
|}.

Record DerivedStep : Type := {
  id : string;
  label : string;
  description : Js.Value;
  completed : bool;
  current : bool
}.

Record LogEntry : Type := {
  done : bool;
  message : string
}.

(** [x > 0] where [x] may be [undefined] (the comparison is then false). *)
Definition gtZero (x : option Z) : bool :=
  match x with
  | Some n => 0 <? n
  | None => false
  end.

(** [x !== 1 ? "s" : ""]. *)
Definition pluralSuffix (x : option Z) : string :=
  match x with
  | Some 1 => ""
  | _ => "s"
  end.

(** A JSX child [{x}]: a number prints in decimal, [undefined] prints
    nothing. *)
Definition jsxNumber (x : option Z) : string :=
  match x with
  | Some n => Js.numberToString n
  | None => ""
  end.

(** ** What a rendered progress log looks like *)

Record LogLine : Type := {
  faded : bool;        (* class "opacity-50" *)
  doneIcon : bool;     (* check mark instead of the spinner *)
  connector : bool;    (* vertical line to the next item *)
  text : string
}.

Record ProgressView : Type := {
  items : list LogLine;
  sourceCount : option string
}.

(** ** URL shortening inside a message *)

Module Url.

(** [\s] on code units below 256. *)
Definition isSpace (c : ascii) : bool :=
  let n := nat_of_ascii c in
  ((9 <=? n) && (n <=? 13) || (n =? 32) || (n =? 160))%nat.

(** Length of the longest prefix matched by [[^\s]*]. *)
Fixpoint nonSpaceRun (s : string) : nat :=
  match s with
  | EmptyString => O
  | String c rest => if isSpace c then O else S (nonSpaceRun rest)
  end.

Fixpoint dropString (n : nat) (s : string) : string :=
  match n, s with
  | O, _ => s
  | S k, EmptyString => EmptyString
  | S k, String _ rest => dropString k rest
  end.

(** Length of the match of [/https?:\/\/[^\s]+/] anchored at the start of
    [s], if there is one. *)
Definition matchUrl (s : string) : option nat :=
  let after (n : nat) :=
    match nonSpaceRun (dropString n s) with
    | O => None
    | S k => Some (n + S k)%nat
    end in
  if String.prefix "https://" s then after 8%nat
  else if String.prefix "http://" s then after 7%nat
  else None.

(** [s.replace(/https?:\/\/[^\s]+/g, f)]: scan left to right; [skip] counts
    the code units of the current match still to be passed over. *)
Fixpoint replaceFrom (f : string → string) (skip : nat) (s : string) : string :=
  match s with
  | EmptyString => EmptyString
  | String c rest =>
      match skip with
      | S k => replaceFrom f k rest
      | O =>
          match matchUrl s with
          | Some n => f (String.substring 0 n s) +:+ replaceFrom f (n - 1) rest
          | None => String c (replaceFrom f O rest)
          end
      end
  end.

Definition replaceUrls (f : string → string) (s : string) : string :=
  replaceFrom f O s.

End Url.

(** ** The [Progress] component *)

Module ProgressLog.

Definition truncateUrl (url : string) : string :=
  if (String.length url <=? 50)%nat then url
  else String.substring 0 47 url +:+ "...".

Definition item (logs : list LogEntry) (index : nat) (log : LogEntry) : LogLine := {|
  faded := negb (done log
                 || (Z.of_nat index =? Js.findIndex (λ log, negb (done log)) logs));
  doneIcon := done log;
  connector := Z.of_nat index <? Z.of_nat (length logs) - 1;
  text := Url.replaceUrls truncateUrl (message log)
|}.

Definition sourceIndicator (state : option ResearchAgentState) : option string :=
  let found := state ?. research ?. sources_found in
  if gtZero (Some (default 0 found)) then
    Some ("Found " +:+ jsxNumber found +:+ " source" +:+ pluralSuffix found)
  else None.

(** [Progress({logs, state})]; [None] is the [null] returned for an empty
    log. *)
Definition Progress (logs : list LogEntry) (state : option ResearchAgentState)
  : option ProgressView :=
  if (length logs =? 0)%nat then None
  else Some {| items := imap (item logs) logs;
               sourceCount := sourceIndicator state |}.

End ProgressLog.

(** ** Mutable cells of the page component and the timer queue *)

(** [isResearchInProgress] is the [useRef] flag, [agentState] the replica
    of the agent state held by [useCoAgent], and [stopCalls] records the
    time of every call of [stopResearchAgent]. *)
Record Cells : Type := {
  isResearchInProgress : bool;
  agentState : option ResearchAgentState;
  stopCalls : list Z
}.

Definition setInProgress (b : bool) (c : Cells) : Cells :=
  {| isResearchInProgress := b;
     agentState := agentState c;
     stopCalls := stopCalls c |}.

(** The external [stop] operation, called at time [now]. *)
Definition stopResearchAgent (now : Z) (c : Cells) : Cells :=
  {| isResearchInProgress := isResearchInProgress c;
     agentState := agentState c;
     stopCalls := stopCalls c ++ [now] |}.

(** A timer callback runs at some time on the cells. *)
Definition Callback : Type := Z → Cells → Cells.

Record Runtime : Type := {
  clock : Z;                        (* milliseconds *)
  timers : list (Z * Callback);     (* pending timers, earliest due first *)
  cells : Cells
}.

(** Timers fire by due time, and in scheduling order when due together. *)
Fixpoint enqueue (due : Z) (cb : Callback) (q : list (Z * Callback))
  : list (Z * Callback) :=
  match q with
  | [] => [(due, cb)]
  | (d, c) :: rest =>
      if d <=? due then (d, c) :: enqueue due cb rest else (due, cb) :: q
  end.

Definition setTimeout (cb : Callback) (delay : Z) (rt : Runtime) : Runtime :=
  {| clock := clock rt;
     timers := enqueue (clock rt + delay) cb (timers rt);
     cells := cells rt |}.

(** Run every timer due by time [t], each at its due time. *)
Fixpoint runDue (t : Z) (q : list (Z * Callback)) (c : Cells)
  : list (Z * Callback) * Cells :=
  match q with
  | [] => ([], c)
  | (d, cb) :: rest => if d <=? t then runDue t rest (cb d c) else (q, c)
  end.

Definition advanceTo (t : Z) (rt : Runtime) : Runtime :=
  let '(q, c) := runDue t (timers rt) (cells rt) in
  {| clock := Z.max (clock rt) t; timers := q; cells := c |}.

(** The component right after mounting. *)
Definition mounted : Runtime := {|
  clock := 0;
  timers := [];
  cells := {| isResearchInProgress := false;
              agentState := Some initialState;
              stopCalls := [] |}
|}.

(** ** [src/app/copilotkit/page.tsx]: progress always shown *)

Module Page.

Definition phaseMap (stage : string) : gmap string string :=
  {[ "idle" := "Getting ready...";
     "initialized" := "Setting up research parameters";
     "gathering_information" :=
       (if String.eqb stage "searching"
        then "Searching the web for information"
        else "Gathering and collecting data");
     "analyzing_information" :=
       (if String.eqb stage "organizing_data"
        then "Organizing research data"
        else "Processing and analyzing information");
     "generating_report" :=
       (if String.eqb stage "creating_detailed_report" then "Creating report outline"
        else if String.eqb stage "outlining_report" then "Creating report outline"
        else if String.eqb stage "drafting_executive_summary" then "Writing executive summary"
        else if String.eqb stage "writing_introduction" then "Drafting introduction"
        else if String.eqb stage "compiling_key_findings" then "Compiling key findings"
        else if String.eqb stage "developing_analysis" then "Developing detailed analysis"
        else if String.eqb stage "forming_conclusions" then "Forming conclusions"
        else if String.eqb stage "finalizing_report" then "Finalizing comprehensive report"
        else "Generating detailed report");
     "completed" :=
       (if String.eqb stage "report_complete"
        then "Research report completed"
        else "Research completed") ]}.

Definition getStepDetails (phase stage : string) : Js.Value :=
  Js.orDefault (Js.getProperty (phaseMap stage) phase) "Processing...".

Definition allPhases : list string :=
  [ "initialized"; "gathering_information"; "analyzing_information";
    "generating_report"; "completed" ].

Definition titleCase (phase : string) : string :=
  Js.join " "
    ((λ word, Js.toUpperCase (Js.charAt0 word) +:+ Js.slice1 word)
       <$> Js.splitOn "_" phase).

Definition getStepsFromState (state : option ResearchAgentState) : list DerivedStep :=
  let currentPhase := Js.orString (state ?. status ?. phase) "idle" in
  let currentStage := Js.orString (state ?. research ?. stage) "not_started" in
  (λ phase,
     {| id := phase;
        label := titleCase phase;
        description := getStepDetails phase currentStage;
        completed := Js.indexOf allPhases currentPhase >? Js.indexOf allPhases phase;
        current := String.eqb currentPhase phase |}) <$> allPhases.

Definition currentStepIndex (steps : list DerivedStep) : Z :=
  Js.findIndex current steps.

Definition logs (steps : list DerivedStep) : list LogEntry :=
  imap (λ index step,
          {| done := completed step || (Z.of_nat index <? currentStepIndex steps);
             message := label step +:+ ": " +:+ Js.toStringValue (description step) |})
       steps.

(** The timer callback scheduled by [handler]. *)
Definition stopLater : Callback :=
  λ now c, stopResearchAgent now (setInProgress false c).

Definition handler (nodeName : string) (rt : Runtime) : Runtime :=
  if String.eqb nodeName "__end__" then setTimeout stopLater 1000 rt else rt.

(** [render({state})]: the rendered progress log and the cells afterwards. *)
Definition render (state : option ResearchAgentState) (c : Cells)
  : option ProgressView * Cells :=
  let c1 := setInProgress true c in
  let steps := getStepsFromState state in
  (ProgressLog.Progress (logs steps) state, c1).

End Page.

(** ** The second page variant: progress rendered inline and gated by the
    run status *)

Module PageGated.

Definition phaseMap (stage : string) : gmap string string :=
  {[ "idle" := "Getting ready...";
     "initialized" := "Setting up research parameters";
     "gathering_information" :=
       (if String.eqb stage "searching"
        then "Searching the web for information"
        else "Gathering and collecting data");
     "analyzing_information" :=
       (if String.eqb stage "organizing_data"
        then "Organizing research data"
        else "Processing and analyzing information");
     "generating_report" :=
       (if String.eqb stage "creating_detailed_report" then "Creating report outline"
        else if String.eqb stage "outlining_report" then "Creating report outline"
        else if String.eqb stage "drafting_executive_summary" then "Writing executive summary"
        else if String.eqb stage "writing_introduction" then "Drafting introduction"
        else if String.eqb stage "compiling_key_findings" then "Compiling key findings"
        else if String.eqb stage "developing_analysis" then "Developing detailed analysis"
        else if String.eqb stage "forming_conclusions" then "Forming conclusions"
        else if String.eqb stage "finalizing_report" then "Finalizing comprehensive report"
        else "Generating detailed report");
     "completed" :=
       (if String.eqb stage "report_complete"
        then "Research report completed"
        else "Research completed") ]}.

Definition getStepDetails (phase stage : string) : Js.Value :=
  Js.orDefault (Js.getProperty (phaseMap stage) phase) "Processing...".

Definition allPhases : list string :=
  [ "initialized"; "gathering_information"; "analyzing_information";
    "generating_report"; "completed" ].

Definition titleCase (phase : string) : string :=
  Js.join " "
    ((λ word, Js.toUpperCase (Js.charAt0 word) +:+ Js.slice1 word)
       <$> Js.splitOn "_" phase).

Definition getStepsFromState (state : option ResearchAgentState) : list DerivedStep :=
  let currentPhase := Js.orString (state ?. status ?. phase) "idle" in
  let currentStage := Js.orString (state ?. research ?. stage) "not_started" in
  (λ phase,
     {| id := phase;
        label := titleCase phase;
        description := getStepDetails phase currentStage;
        completed := Js.indexOf allPhases currentPhase >? Js.indexOf allPhases phase;
        current := String.eqb currentPhase phase |}) <$> allPhases.

Definition currentStepIndex (steps : list DerivedStep) : Z :=
  Js.findIndex current steps.

Definition truncateUrl (url : string) : string :=
  if (String.length url <=? 50)%nat then url
  else String.substring 0 47 url +:+ "...".

Definition logs (steps : list DerivedStep) : list LogEntry :=
  imap (λ index step,
          {| done := completed step || (Z.of_nat index <? currentStepIndex steps);
             message := label step +:+ ": " +:+ Js.toStringValue (description step) |})
       steps.

Definition item (logs : list LogEntry) (index : nat) (log : LogEntry) : LogLine := {|
  faded := negb (done log
                 || (Z.of_nat index =? Js.findIndex (λ log, negb (done log)) logs));
  doneIcon := done log;
  connector := Z.of_nat index <? Z.of_nat (length logs) - 1;
  text := Url.replaceUrls truncateUrl (message log)
|}.

(** The guard reads through [?.]; the text under it reads
    [state.research.sources_found] with plain accesses. *)
Definition sourceIndicator (state : option ResearchAgentState)
  : result (option string) :=
  if gtZero (state ?. research ?. sources_found) then
    r ←R access state research;
    n ←R access r sources_found;
    r' ←R access state research;
    n' ←R access r' sources_found;
    Ok (Some ("Found " +:+ jsxNumber n +:+ " source" +:+ pluralSuffix n'))
  else Ok None.

Definition stopLater : Callback :=
  λ now c, stopResearchAgent now (setInProgress false c).

Definition handler (nodeName : string) (rt : Runtime) : Runtime :=
  if String.eqb nodeName "__end__" then setTimeout stopLater 1000 rt else rt.

(** [render({status})]: the state is the one held by the hook.  The second
    test of ["complete"] is kept as the source has it. *)
Definition render (status : string) (c : Cells)
  : result (option ProgressView) * Cells :=
  if String.eqb status "inProgress" || String.eqb status "complete" then
    let c1 := setInProgress true c in
    let state := agentState c1 in
    let steps := getStepsFromState state in
    let logs := logs steps in
    (count ←R sourceIndicator state;
     Ok (Some {| items := imap (item logs) logs; sourceCount := count |}),
     c1)
  else if String.eqb status "complete" then (Ok None, setInProgress false c)
  else (Ok None, c).

End PageGated.

(** ** [src/components/ReportCanvas.tsx] *)

Module Canvas.

Inductive ReportCard : Type :=
  | Markdown (body : string)
      (* the report handed to the markdown renderer *)
  | Placeholder (heading : string) (message : string) (badge : option string).

Record SourceItem : Type := {
  number : Z;
  linkText : string;
  href : string;
  snippetText : option string;
  urlText : string
}.

Record SourcesCard : Type := {
  countText : string;
  entries : list SourceItem
}.

Record View : Type := {
  questionCard : option string;
  statusCard : bool;
  reportCard : ReportCard;
  sourcesCard : option SourcesCard
}.

Definition truthyOpt (s : option string) : bool :=
  match s with
  | Some x => Js.truthyString x
  | None => false
  end.

(** [xs?.length] *)
Definition lengthOf (xs : option (list Source)) : option Z :=
  (λ l, Z.of_nat (length l)) <$> xs.

Definition sourceItem (index : nat) (resource : Source) : SourceItem := {|
  number := Z.of_nat index + 1;
  linkText := title resource;
  href := url resource;
  snippetText := if truthyOpt (snippet resource) then snippet resource else None;
  urlText := url resource
|}.

Definition ReportCanvas (state : option ResearchAgentState) (running : bool)
  : result View :=
  question ←R
    (if truthyOpt (state ?. research ?. query) then
       q ←R access state (λ s, research s ?. query);
       Ok (Some (default "" q))
     else Ok None);
  let report := state ?. processing ?. report in
  let count := lengthOf (state ?. research ?. sources) in
  let card :=
    if truthyOpt report then Markdown (default "" report)
    else Placeholder
           (if running then "Generating Report" else "Ready to Research")
           (if running
            then "Your research report will appear here once the analysis is complete."
            else "Ask me to research any topic and I'll generate a comprehensive, well-structured report for you.")
           (if gtZero (Some (default 0 count))
            then Some (jsxNumber count +:+ " source" +:+ pluralSuffix count +:+ " found")
            else None) in
  sourcesBlock ←R
    (match state ?. research ?. sources with
     | Some _ =>
         n ←R access state (λ s, lengthOf (research s ?. sources));
         if gtZero n then
           n1 ←R access state (λ s, lengthOf (research s ?. sources));
           n2 ←R access state (λ s, lengthOf (research s ?. sources));
           l ←R access state (λ s, research s ?. sources);
           Ok (Some {| countText := jsxNumber n1 +:+ " source" +:+ pluralSuffix n2
                                    +:+ " used in this research";
                       entries := imap sourceItem (default [] l) |})
         else Ok None
     | None => Ok None
     end);
  Ok {| questionCard := question;
        statusCard := running && negb (truthyOpt report);
        reportCard := card;
        sourcesCard := sourcesBlock |}.

End Canvas.

(** ** Vocabulary of the statements *)

(** The keys the object literal [phaseMap] stores. *)
Definition mappedPhases : list string :=
  [ "idle"; "initialized"; "gathering_information"; "analyzing_information";
    "generating_report"; "completed" ].

(** What the [switch] over the stage returns for [generating_report]. *)
Definition reportStageText (stage : string) : string :=
  if String.eqb stage "creating_detailed_report" then "Creating report outline"
  else if String.eqb stage "outlining_report" then "Creating report outline"
  else if String.eqb stage "drafting_executive_summary" then "Writing executive summary"
  else if String.eqb stage "writing_introduction" then "Drafting introduction"
  else if String.eqb stage "compiling_key_findings" then "Compiling key findings"
  else if String.eqb stage "developing_analysis" then "Developing detailed analysis"
  else if String.eqb stage "forming_conclusions" then "Forming conclusions"
  else if String.eqb stage "finalizing_report" then "Finalizing comprehensive report"
  else "Generating detailed report".

(** The text stored under each of the five step phases. *)
Definition stepText (phase stage : string) : string :=
  if String.eqb phase "initialized" then "Setting up research parameters"
  else if String.eqb phase "gathering_information" then
    (if String.eqb stage "searching" then "Searching the web for information"
     else "Gathering and collecting data")
  else if String.eqb phase "analyzing_information" then
    (if String.eqb stage "organizing_data" then "Organizing research data"
     else "Processing and analyzing information")
  else if String.eqb phase "generating_report" then reportStageText stage
  else if String.eqb stage "report_complete" then "Research report completed"
  else "Research completed".

(** Node events with their arrival times: time passes up to the arrival,
    timers that are due run, then the handler runs. *)
Definition deliver (rt : Runtime) (ev : Z * string) : Runtime :=
  Page.handler ev.2 (advanceTo ev.1 rt).

Definition run (evs : list (Z * string)) (rt : Runtime) : Runtime :=
  foldl deliver rt evs.

(** The runtime with the in-progress flag forced to [b]. *)
Definition withFlag (b : bool) (rt : Runtime) : Runtime :=
  {| clock := clock rt; timers := timers rt;
     cells := setInProgress b (cells rt) |}.

(** The in-progress flag of cells that started with the flag at [b] and
    have only been touched by stop callbacks: still [b] before the first
    stop call, cleared from then on. *)
Definition flagTracksStops (b : bool) (c : Cells) : Prop :=
  isResearchInProgress c = match stopCalls c with [] => b | _ :: _ => false end.

(** Arrival times of the terminal-node events of a trace. *)
Definition endTimes (evs : list (Z * string)) : list Z :=
  (filter (λ ev, ev.2 = "__end__") evs).*1.

(** A pending timer that holds the stop callback of [handler]. *)
Definition isStopLater (tc : Z * Callback) : Prop := tc.2 = Page.stopLater.

(** What a runtime looks like while only [handler] schedules timers. *)
Record stopsOnly (rt : Runtime) : Prop := {
  stops_callbacks : Forall isStopLater (timers rt);
  stops_due : Forall (λ tc, tc.1 ≤ clock rt + 1000) (timers rt)
}.

(** Times of the stop calls made so far, then of those still pending. *)
Definition stopTrace (rt : Runtime) : list Z :=
  stopCalls (cells rt) ++ (timers rt).*1.

(** The phase and stage the step derivation works with, defaults applied. *)
Definition currentPhaseOf (state : option ResearchAgentState) : string :=
  Js.orString (state ?. status ?. phase) "idle".

Definition currentStageOf (state : option ResearchAgentState) : string :=
  Js.orString (state ?. research ?. stage) "not_started".

(** A state that only carries a phase and a stage. *)
Definition stateAt (p stage : string) : option ResearchAgentState :=
  Some {| status := Some {| phase := Some p |};
          research := Some {| query := None; stage := Some stage;
                              sources_found := None; sources := None |};
          processing := None |}.

(** Cells of a page whose hook holds [stateAt p stage]. *)
Definition cellsAt (p stage : string) : Cells :=
  {| isResearchInProgress := false;
     agentState := stateAt p stage;
     stopCalls := [] |}.

(** Number of derived steps marked current. *)
Definition currentCount (steps : list DerivedStep) : nat :=
  length (filter (λ s, current s = true) steps).

(** ** Vocabulary of the further properties *)

(** One pass over a phase name: an underscore becomes a space, and the code
    unit at the start of a word is upper-cased. *)
Fixpoint titleScan (wordStart : bool) (s : string) : string :=
  match s with
  | EmptyString => EmptyString
  | String c rest =>
      if Ascii.eqb c "_" then String " " (titleScan true rest)
      else String (if wordStart then Js.upperAscii c else c) (titleScan false rest)
  end.

(** Code units below 128, where [toUpperCase] only touches a to z. *)
Definition asciiOnly (s : string) : Prop :=
  Forall (λ c, (nat_of_ascii c < 128)%nat) (list_ascii_of_string s).

(** No whitespace code unit in [s]. *)
Definition spaceFree (s : string) : Prop :=
  Forall (λ c, Url.isSpace c = false) (list_ascii_of_string s).

(** No position of [s] starts a match of the URL pattern. *)
Definition urlFree (s : string) : Prop :=
  ∀ k, Url.matchUrl (Url.dropString k s) = None.

(** What the page reacts to: a node event, or a render with the state the
    agent delivers. *)
Inductive PageEvent : Type :=
  | NodeArrived (nodeName : string)
  | Rerendered (state : option ResearchAgentState).

Definition react (rt : Runtime) (ev : Z * PageEvent) : Runtime :=
  let rt1 := advanceTo ev.1 rt in
  match ev.2 with
  | NodeArrived nodeName => Page.handler nodeName rt1
  | Rerendered state =>
      {| clock := clock rt1; timers := timers rt1;
         cells := (Page.render state (cells rt1)).2 |}
  end.

Definition session (evs : list (Z * PageEvent)) (rt : Runtime) : Runtime :=
  foldl react rt evs.

Definition isTerminal (ev : PageEvent) : bool :=
  match ev with
  | NodeArrived nodeName => String.eqb nodeName "__end__"
  | Rerendered _ => false
  end.

(** Arrival times of the terminal-node events of a session. *)
Definition terminalTimes (evs : list (Z * PageEvent)) : list Z :=
  (filter (λ ev, isTerminal ev.2 = true) evs).*1.

(** * Properties *)

(** ** The array primitives *)

Section ArrayFacts.

Lemma indexOfFrom_notin (k : Z) (arr : list string) (x : string) :
  x ∉ arr → Js.indexOfFrom k arr x = -1.
Proof.
  revert k. induction arr as [|y rest IH]; intros k Hx; simpl; [done|].
  apply not_elem_of_cons in Hx as [Hne Hrest].
  destruct (String.eqb_spec y x) as [->|_]; [done|]. by apply IH.
Qed.

Lemma indexOfFrom_lookup (k : Z) (arr : list string) (i : nat) (x : string) :
  NoDup arr → arr !! i = Some x → Js.indexOfFrom k arr x = k + Z.of_nat i.
Proof.
  revert k i. induction arr as [|y rest IH]; intros k i Hnd Hi; [done|].
  apply NoDup_cons in Hnd as [Hy Hnd]. simpl.
  destruct i as [|i]; simpl in Hi.
  - injection Hi as ->. rewrite String.eqb_refl. lia.
  - destruct (String.eqb_spec y x) as [->|_].
    + exfalso. apply Hy. by eapply list_elem_of_lookup_2.
    + rewrite (IH (k + 1) i) by done. lia.
Qed.

Lemma indexOf_notin (arr : list string) (x : string) :
  x ∉ arr → Js.indexOf arr x = -1.
Proof. apply indexOfFrom_notin. Qed.

Lemma indexOf_lookup (arr : list string) (i : nat) (x : string) :
  NoDup arr → arr !! i = Some x → Js.indexOf arr x = Z.of_nat i.
Proof.
  intros Hnd Hi. unfold Js.indexOf.
  rewrite (indexOfFrom_lookup 0 arr i x) by done. lia.
Qed.

Context {A : Type}.

Lemma findIndex_none (p : A → bool) (arr : list A) :
  (∀ x, x ∈ arr → p x = false) → Js.findIndex p arr = -1.
Proof.
  intros Hall. unfold Js.findIndex.
  destruct (list_find _ arr) as [[i x]|] eqn:Hfind; [|done].
  apply list_find_Some in Hfind as (Hi & Hp & _).
  rewrite Hall in Hp; [done|]. by eapply list_elem_of_lookup_2.
Qed.

Lemma findIndex_first (p : A → bool) (arr : list A) (i : nat) (x : A) :
  arr !! i = Some x → p x = true →
  (∀ j y, arr !! j = Some y → (j < i)%nat → p y = false) →
  Js.findIndex p arr = Z.of_nat i.
Proof.
  intros Hi Hp Hbefore. unfold Js.findIndex.
  assert (list_find (λ x, p x = true) arr = Some (i, x)) as ->; [|done].
  apply list_find_Some. split_and!; [done..|].
  intros j y Hj Hlt. rewrite (Hbefore j y) by done. done.
Qed.

End ArrayFacts.

(** ** The phase/stage describer *)

Section Describer.

Lemma phaseMap_unmapped (stage phase : string) :
  phase ∉ mappedPhases → Page.phaseMap stage !! phase = None.
Proof.
  intros Hnot. unfold mappedPhases in Hnot.
  repeat (apply not_elem_of_cons in Hnot as [? Hnot]).
  unfold Page.phaseMap.
  repeat (rewrite lookup_insert_ne; [|congruence]).
  apply lookup_singleton_ne. congruence.
Qed.

Lemma stepText_nonempty (phase stage : string) :
  Js.truthyString (stepText phase stage) = true.
Proof.
  unfold stepText, reportStageText.
  repeat match goal with |- context [if ?b then _ else _] => destruct b end;
    reflexivity.
Qed.

Lemma getStepDetails_step (phase stage : string) :
  phase ∈ Page.allPhases →
  Page.getStepDetails phase stage = Js.VString (stepText phase stage).
Proof.
  intros Hin. unfold Page.allPhases in Hin.
  assert (Js.getProperty (Page.phaseMap stage) phase
          = Some (Js.VString (stepText phase stage))) as Hget.
  { repeat (apply elem_of_cons in Hin as [->|Hin]); [reflexivity..|].
    by apply elem_of_nil in Hin. }
  unfold Page.getStepDetails. rewrite Hget. simpl.
  by rewrite stepText_nonempty.
Qed.

Lemma getStepDetails_unmapped (phase stage : string) :
  phase ∉ mappedPhases → phase ∉ Js.objectPrototypeKeys →
  Page.getStepDetails phase stage = Js.VString "Processing...".
Proof.
  intros Hown Hproto. unfold Page.getStepDetails, Js.getProperty.
  rewrite phaseMap_unmapped by done.
  by rewrite decide_False.
Qed.



End Describer.

(** ** The two page variants derive the same values *)

Section Variants.


Lemma steps_agree (state : option ResearchAgentState) :
  PageGated.getStepsFromState state = Page.getStepsFromState state.
Proof. reflexivity. Qed.

Lemma logs_agree (steps : list DerivedStep) :
  PageGated.logs steps = Page.logs steps.
Proof. reflexivity. Qed.

Lemma truncateUrl_agree (u : string) :
  PageGated.truncateUrl u = ProgressLog.truncateUrl u.
Proof. reflexivity. Qed.

Lemma item_agree (logs : list LogEntry) (index : nat) (log : LogEntry) :
  PageGated.item logs index log = ProgressLog.item logs index log.
Proof. reflexivity. Qed.

End Variants.

(** ** The step derivation *)

Section Steps.

Lemma allPhases_NoDup : NoDup Page.allPhases.
Proof. by apply (bool_decide_unpack _). Qed.

Lemma steps_lookup (state : option ResearchAgentState) (i : nat) (p : string) :
  Page.allPhases !! i = Some p →
  Page.getStepsFromState state !! i =
    Some {| id := p;
            label := Page.titleCase p;
            description := Page.getStepDetails p (currentStageOf state);
            completed := Js.indexOf Page.allPhases (currentPhaseOf state)
                         >? Js.indexOf Page.allPhases p;
            current := String.eqb (currentPhaseOf state) p |}.
Proof.
  intros Hp. unfold Page.getStepsFromState.
  by rewrite list_lookup_fmap, Hp.
Qed.

Lemma steps_lookup_inv (state : option ResearchAgentState) (i : nat) (s : DerivedStep) :
  Page.getStepsFromState state !! i = Some s →
  Page.allPhases !! i = Some (id s)
  ∧ completed s = (Js.indexOf Page.allPhases (currentPhaseOf state) >? Z.of_nat i)
  ∧ current s = String.eqb (currentPhaseOf state) (id s)
  ∧ description s = Page.getStepDetails (id s) (currentStageOf state)
  ∧ label s = Page.titleCase (id s).
Proof.
  intros Hs. unfold Page.getStepsFromState in Hs.
  rewrite list_lookup_fmap in Hs.
  destruct (Page.allPhases !! i) as [p|] eqn:Hp; [|done].
  injection Hs as <-. simpl.
  by rewrite (indexOf_lookup _ i p allPhases_NoDup Hp).
Qed.

Lemma steps_length (state : option ResearchAgentState) :
  length (Page.getStepsFromState state) = 5%nat.
Proof. reflexivity. Qed.

(** A current step sits at the index of the current phase. *)
Lemma current_index (state : option ResearchAgentState) (k : nat) (s : DerivedStep) :
  Page.getStepsFromState state !! k = Some s → current s = true →
  Js.indexOf Page.allPhases (currentPhaseOf state) = Z.of_nat k.
Proof.
  intros Hs Hcur. apply steps_lookup_inv in Hs as (Hp & _ & Hc & _).
  rewrite Hc in Hcur. apply String.eqb_eq in Hcur.
  rewrite Hcur. by apply indexOf_lookup; [apply allPhases_NoDup|].
Qed.

(** Around a current step: completed before it, untouched after it. *)
Lemma steps_around_current (state : option ResearchAgentState)
    (k : nat) (cur : DerivedStep) :
  Page.getStepsFromState state !! k = Some cur → current cur = true →
  ∀ j s, Page.getStepsFromState state !! j = Some s →
    ((j < k)%nat → completed s = true)
    ∧ ((k < j)%nat → completed s = false ∧ current s = false).
Proof.
  intros Hk Hcur j s Hj.
  pose proof (current_index state k cur Hk Hcur) as Hidx.
  apply steps_lookup_inv in Hj as (Hpj & Hcomp & Hcurj & _).
  apply steps_lookup_inv in Hk as (Hpk & _ & Hcurk & _).
  rewrite Hcomp, Hcurj, Hidx. split.
  - intros Hlt. apply Z.gtb_lt. lia.
  - intros Hlt. split.
    + rewrite Z.gtb_ltb. apply Z.ltb_ge. lia.
    + apply String.eqb_neq. intros Heq.
      rewrite Hcurk in Hcur. apply String.eqb_eq in Hcur.
      rewrite Heq in Hcur. rewrite Hcur in Hpj.
      pose proof (NoDup_lookup _ j k _ allPhases_NoDup Hpj Hpk). lia.
Qed.

(** A current step is the first and only one. *)
Lemma current_unique (state : option ResearchAgentState)
    (k j : nat) (cur s : DerivedStep) :
  Page.getStepsFromState state !! k = Some cur → current cur = true →
  Page.getStepsFromState state !! j = Some s → j ≠ k → current s = false.
Proof.
  intros Hk Hcur Hj Hne.
  destruct (decide (j < k)%nat) as [Hlt|Hge].
  - destruct (current s) eqn:Hs; [|done].
    destruct (steps_around_current state j s Hj Hs k cur Hk) as [_ Hafter].
    destruct (Hafter Hlt) as [_ Hc]. congruence.
  - destruct (steps_around_current state k cur Hk Hcur j s Hj) as [_ Hafter].
    apply Hafter. lia.
Qed.

Lemma currentStepIndex_current (state : option ResearchAgentState)
    (k : nat) (cur : DerivedStep) :
  Page.getStepsFromState state !! k = Some cur → current cur = true →
  Page.currentStepIndex (Page.getStepsFromState state) = Z.of_nat k.
Proof.
  intros Hk Hcur. unfold Page.currentStepIndex.
  apply (findIndex_first _ _ k cur); [done..|].
  intros j y Hj Hlt. eapply current_unique; [exact Hk|done|exact Hj|lia].
Qed.

Lemma step_description (state : option ResearchAgentState) (i : nat) (s : DerivedStep) :
  Page.getStepsFromState state !! i = Some s →
  description s = Js.VString (stepText (id s) (currentStageOf state)).
Proof.
  intros Hs. apply steps_lookup_inv in Hs as (Hp & _ & _ & Hd & _).
  rewrite Hd. apply getStepDetails_step. by eapply list_elem_of_lookup_2.
Qed.

Lemma logs_lookup (steps : list DerivedStep) (i : nat) :
  Page.logs steps !! i =
    (λ step, {| done := completed step
                        || (Z.of_nat i <? Page.currentStepIndex steps);
                message := label step +:+ ": "
                           +:+ Js.toStringValue (description step) |})
      <$> steps !! i.
Proof. unfold Page.logs. by rewrite list_lookup_imap. Qed.

Lemma logs_length (steps : list DerivedStep) :
  length (Page.logs steps) = length steps.
Proof. unfold Page.logs. by rewrite length_imap. Qed.

Lemma currentCount_fmap (mk : string → DerivedStep) (cp : string) (l : list string) :
  (∀ p, current (mk p) = String.eqb cp p) → NoDup l →
  currentCount (mk <$> l) = if decide (cp ∈ l) then 1%nat else 0%nat.
Proof.
  intros Hmk. unfold currentCount.
  induction l as [|p l IH]; intros Hnd; [done|].
  apply NoDup_cons in Hnd as [Hp Hnd]. specialize (IH Hnd).
  rewrite fmap_cons, filter_cons, Hmk.
  destruct (String.eqb_spec cp p) as [->|Hne].
  - rewrite decide_True by done. simpl. rewrite IH.
    rewrite decide_False by done.
    rewrite decide_True; [done|]. apply elem_of_cons. by left.
  - rewrite decide_False by done. rewrite IH.
    destruct (decide (cp ∈ l)).
    + rewrite decide_True; [done|]. apply elem_of_cons. by right.
    + rewrite decide_False; [done|]. by apply not_elem_of_cons.
Qed.

Lemma steps_currentCount (state : option ResearchAgentState) :
  currentCount (Page.getStepsFromState state)
  = if decide (currentPhaseOf state ∈ Page.allPhases) then 1%nat else 0%nat.
Proof.
  unfold Page.getStepsFromState.
  apply currentCount_fmap; [done|apply allPhases_NoDup].
Qed.

End Steps.

Section StepInvariant.

Lemma currentPhaseOf_raw (state : option ResearchAgentState) (raw : string) :
  state ?. status ?. phase = Some raw →
  Js.indexOf Page.allPhases (currentPhaseOf state) = Js.indexOf Page.allPhases raw
  ∧ ∀ p, p ∈ Page.allPhases → (currentPhaseOf state = p ↔ raw = p).
Proof.
  intros Hraw. unfold currentPhaseOf. rewrite Hraw.
  destruct raw as [|a r]; simpl; [|done].
  split; [done|]. intros p Hp. unfold Page.allPhases in Hp.
  repeat (apply elem_of_cons in Hp as [->|Hp]); try done.
  by apply elem_of_nil in Hp.
Qed.

(** C1: over the fixed sequence of five phases, the step at index [i] is
    completed iff the index of the current phase is strictly greater than
    [i], and current iff the current phase is that step's phase.  Hence
    exactly one step is current when the current phase is in the sequence,
    none when it is not (idle has index -1), never more than one; every step
    before the current one is completed, every step after it is neither
    completed nor current.  The current phase is [state.status.phase], with
    idle standing in for a missing or empty value.  Both page variants
    derive the same list. *)
Theorem C1_step_flags (state : option ResearchAgentState) :
  let cp := currentPhaseOf state in
  let steps := Page.getStepsFromState state in
  (∀ i p, Page.allPhases !! i = Some p →
     ∃ s, steps !! i = Some s ∧ id s = p
          ∧ (completed s = true ↔ Z.of_nat i < Js.indexOf Page.allPhases cp)
          ∧ (current s = true ↔ cp = p))
  ∧ length steps = length Page.allPhases
  ∧ (∀ raw, state ?. status ?. phase = Some raw →
       Js.indexOf Page.allPhases cp = Js.indexOf Page.allPhases raw
       ∧ ∀ p, p ∈ Page.allPhases → (cp = p ↔ raw = p))
  ∧ (cp ∈ Page.allPhases → currentCount steps = 1%nat)
  ∧ (cp ∉ Page.allPhases →
       Js.indexOf Page.allPhases cp = -1 ∧ currentCount steps = 0%nat)
  ∧ (cp = "idle" →
       Js.indexOf Page.allPhases cp = -1 ∧ currentCount steps = 0%nat)
  ∧ (currentCount steps ≤ 1)%nat
  ∧ (∀ k cur, steps !! k = Some cur → current cur = true →
       ∀ j s, steps !! j = Some s →
         ((j < k)%nat → completed s = true)
         ∧ ((k < j)%nat → completed s = false ∧ current s = false))
  ∧ PageGated.getStepsFromState state = steps.
Proof.
  intros cp steps.
  assert (cp ∉ Page.allPhases →
          Js.indexOf Page.allPhases cp = -1 ∧ currentCount steps = 0%nat) as Hout.
  { intros Hnot. split; [by apply indexOf_notin|].
    unfold steps. rewrite steps_currentCount. by rewrite decide_False. }
  split_and!.
  - intros i p Hp. eexists. split; [by apply steps_lookup|]. simpl.
    rewrite (indexOf_lookup _ i p allPhases_NoDup Hp). fold cp.
    split_and!; [done| |].
    + rewrite Z.gtb_ltb, Z.ltb_lt. done.
    + apply String.eqb_eq.
  - done.
  - apply currentPhaseOf_raw.
  - intros Hin. unfold steps. rewrite steps_currentCount. by rewrite decide_True.
  - exact Hout.
  - intros Hidle. apply Hout. rewrite Hidle. by apply (bool_decide_unpack _).
  - unfold steps. rewrite steps_currentCount. case_decide; lia.
  - apply steps_around_current.
  - apply steps_agree.
Qed.

Lemma C1_step_flags_witness :
  currentCount (Page.getStepsFromState (stateAt "gathering_information" "searching")) = 1%nat
  ∧ currentCount (Page.getStepsFromState (stateAt "idle" "not_started")) = 0%nat.
Proof.
  split.
  - destruct (C1_step_flags (stateAt "gathering_information" "searching"))
      as (_ & _ & _ & Hone & _).
    apply Hone. by eapply (list_elem_of_lookup_2 _ 1%nat).
  - destruct (C1_step_flags (stateAt "idle" "not_started"))
      as (_ & _ & _ & _ & _ & Hidle & _).
    by apply Hidle.
Defined.

End StepInvariant.

(** ** Log entries *)

Section LogEntries.

(** C3: the log derivation yields one entry per derived step, in order.
    The entry at index [i] has [done = completed || i < currentStepIndex]
    and its message is the label, a colon and a space, then the
    description.  [currentStepIndex] is the index of the one current step;
    when no step is current it is -1 and [done] equals [completed]. *)
Theorem C3_log_entries (state : option ResearchAgentState) :
  let steps := Page.getStepsFromState state in
  let entries := Page.logs steps in
  let csi := Page.currentStepIndex steps in
  length entries = length steps
  ∧ (∀ i step, steps !! i = Some step →
       ∃ d, description step = Js.VString d
            ∧ entries !! i =
                Some {| done := completed step || (Z.of_nat i <? csi);
                        message := label step +:+ ": " +:+ d |})
  ∧ (∀ k cur, steps !! k = Some cur → current cur = true → csi = Z.of_nat k)
  ∧ ((∀ s, s ∈ steps → current s = false) →
       csi = -1
       ∧ ∀ i step, steps !! i = Some step →
           ∃ e, entries !! i = Some e ∧ done e = completed step)
  ∧ PageGated.logs (PageGated.getStepsFromState state) = entries.
Proof.
  intros steps entries csi. split_and!.
  - apply logs_length.
  - intros i step Hi. exists (stepText (id step) (currentStageOf state)).
    split; [by eapply step_description|].
    unfold entries. rewrite logs_lookup, Hi. simpl.
    by rewrite (step_description state i step Hi).
  - apply currentStepIndex_current.
  - intros Hnone.
    assert (csi = -1) as Hcsi by (by apply findIndex_none).
    split; [done|]. intros i step Hi. eexists.
    unfold entries. rewrite logs_lookup, Hi. simpl. split; [done|]. simpl.
    fold steps csi. rewrite Hcsi.
    replace (Z.of_nat i <? -1) with false by (symmetry; apply Z.ltb_ge; lia).
    apply orb_false_r.
  - reflexivity.
Qed.

Lemma C3_log_entries_witness :
  Page.logs (Page.getStepsFromState (stateAt "analyzing_information" "organizing_data")) !! 1%nat
  = Some {| done := true;
            message := "Gathering Information: Gathering and collecting data" |}.
Proof.
  destruct (C3_log_entries (stateAt "analyzing_information" "organizing_data"))
    as (_ & Hentry & _).
  destruct (Hentry 1%nat _ eq_refl) as (d & Hd & He).
  injection Hd as <-. exact He.
Defined.

End LogEntries.

(** ** The delayed stop *)

Section DelayedStop.

Lemma enqueue_last (due : Z) (cb : Callback) (q : list (Z * Callback)) :
  Forall (λ tc, tc.1 ≤ due) q → enqueue due cb q = q ++ [(due, cb)].
Proof.
  induction q as [|[d c] q IH]; intros Hq; simpl; [done|].
  apply Forall_cons in Hq as [Hd Hq]. simpl in Hd.
  replace (d <=? due) with true by (symmetry; apply Z.leb_le; lia).
  by rewrite IH.
Qed.

Lemma runDue_stops (t : Z) (q : list (Z * Callback)) (c : Cells) :
  Forall isStopLater q →
  stopCalls (runDue t q c).2 ++ (runDue t q c).1.*1 = stopCalls c ++ q.*1
  ∧ Forall isStopLater (runDue t q c).1
  ∧ (∀ bound, Forall (λ tc, tc.1 ≤ bound) q →
              Forall (λ tc, tc.1 ≤ bound) (runDue t q c).1)
  ∧ agentState (runDue t q c).2 = agentState c.
Proof.
  revert c. induction q as [|[d cb] q IH]; intros c Hq; simpl.
  { by rewrite app_nil_r. }
  apply Forall_cons in Hq as [Hcb Hq]. unfold isStopLater in Hcb. simpl in Hcb.
  destruct (d <=? t) eqn:Hdue.
  - destruct (IH (cb d c) Hq) as (Hcalls & Hall & Hbound & Hstate).
    rewrite Hcalls. subst cb. simpl. split_and!.
    + by rewrite <- app_assoc.
    + done.
    + intros bound Hb. apply Forall_cons in Hb as [_ Hb]. by apply Hbound.
    + by rewrite Hstate.
  - simpl. split_and!; [done| |done|done].
    by apply Forall_cons.
Qed.

Lemma runDue_all (t : Z) (q : list (Z * Callback)) (c : Cells) :
  Forall (λ tc, tc.1 ≤ t) q → (runDue t q c).1 = [].
Proof.
  revert c. induction q as [|[d cb] q IH]; intros c Hq; simpl; [done|].
  apply Forall_cons in Hq as [Hd Hq]. simpl in Hd.
  replace (d <=? t) with true by (symmetry; apply Z.leb_le; lia).
  by apply IH.
Qed.

Lemma advanceTo_stops (t : Z) (rt : Runtime) :
  stopsOnly rt →
  stopsOnly (advanceTo t rt)
  ∧ stopTrace (advanceTo t rt) = stopTrace rt
  ∧ clock (advanceTo t rt) = Z.max (clock rt) t.
Proof.
  intros [Hcb Hdue]. unfold advanceTo, stopTrace.
  destruct (runDue_stops t (timers rt) (cells rt) Hcb) as (Hcalls & Hall & Hbound & _).
  destruct (runDue t (timers rt) (cells rt)) as [q c] eqn:Hrun. simpl in *.
  split_and!; [|done..]. split; simpl; [done|].
  eapply Forall_impl; [by apply Hbound|]. simpl. intros tc Htc. lia.
Qed.

Lemma deliver_stops (rt : Runtime) (t : Z) (name : string) :
  stopsOnly rt → clock rt ≤ t →
  stopsOnly (deliver rt (t, name))
  ∧ clock (deliver rt (t, name)) = t
  ∧ stopTrace (deliver rt (t, name))
    = stopTrace rt ++ (if String.eqb name "__end__" then [t + 1000] else []).
Proof.
  intros Hrt Hle. unfold deliver. simpl.
  destruct (advanceTo_stops t rt Hrt) as ([Hcb Hdue] & Htrace & Hclock).
  rewrite Z.max_r in Hclock by done.
  unfold Page.handler. destruct (String.eqb name "__end__").
  - unfold setTimeout, stopTrace in *. simpl. rewrite Hclock in *.
    rewrite enqueue_last by done. split_and!.
    + split; simpl.
      * apply Forall_app. split; [done|]. by apply Forall_singleton.
      * apply Forall_app. split; [done|]. apply Forall_singleton. simpl. lia.
    + done.
    + rewrite fmap_app. simpl. by rewrite app_assoc, Htrace.
  - rewrite app_nil_r. split_and!; [|done..]. by split.
Qed.








End DelayedStop.

(** ** URL truncation *)

Section Truncation.

Lemma length_append (s t : string) :
  String.length (s +:+ t) = (String.length s + String.length t)%nat.
Proof. induction s as [|c s IH]; simpl; [done|]. by rewrite IH. Qed.

(** [s.substring(0, n)] is the prefix of [n] code units. *)
Lemma substring_prefix (n : nat) (s : string) :
  (n ≤ String.length s)%nat →
  s = String.substring 0 n s +:+ Url.dropString n s
  ∧ String.length (String.substring 0 n s) = n.
Proof.
  revert s. induction n as [|n IH]; intros s Hn.
  { by destruct s. }
  destruct s as [|c s]; simpl in Hn; [lia|].
  destruct (IH s) as [Hsplit Hlen]; [lia|]. simpl.
  split; [|by rewrite Hlen].
  change (String c s = String c (String.substring 0 n s +:+ Url.dropString n s)).
  by rewrite <- Hsplit.
Qed.

Lemma truncateUrl_short (u : string) :
  (String.length u ≤ 50)%nat → ProgressLog.truncateUrl u = u.
Proof.
  intros Hlen. unfold ProgressLog.truncateUrl.
  by replace (String.length u <=? 50)%nat with true
    by (symmetry; apply Nat.leb_le; lia).
Qed.

Lemma truncateUrl_long (u : string) :
  (50 < String.length u)%nat →
  ProgressLog.truncateUrl u = String.substring 0 47 u +:+ "..."
  ∧ String.length (ProgressLog.truncateUrl u) = 50%nat.
Proof.
  intros Hlen. unfold ProgressLog.truncateUrl.
  replace (String.length u <=? 50)%nat with false
    by (symmetry; apply Nat.leb_gt; lia).
  split; [done|]. rewrite length_append.
  destruct (substring_prefix 47 u) as [_ ->]; [lia|done].
Qed.

Lemma replaceUrls_long_url :
  Url.replaceUrls ProgressLog.truncateUrl
    "see https://example.org/reports/2024/annual/summary/final-version.html now"
  = "see https://example.org/reports/2024/annual/summary... now".
Proof. reflexivity. Qed.

(** The messages of the derived steps hold no URL: they are shown as
    they are. *)
Lemma replaceUrls_step_message (state : option ResearchAgentState) (i : nat) (e : LogEntry) :
  Page.logs (Page.getStepsFromState state) !! i = Some e →
  Url.replaceUrls ProgressLog.truncateUrl (message e) = message e.
Proof.
  intros He. rewrite logs_lookup in He.
  destruct (Page.getStepsFromState state !! i) as [s|] eqn:Hs; [|done].
  injection He as <-. simpl.
  rewrite (step_description state i s Hs). simpl.
  apply steps_lookup_inv in Hs as (Hp & _ & _ & _ & ->).
  generalize (currentStageOf state). intros stage.
  destruct s as [p lbl d cmp cur]. simpl in *.
  do 5 (destruct i as [|i]; [injection Hp as <-; unfold stepText, reportStageText;
        repeat match goal with |- context [if ?b then _ else _] => destruct b end;
        reflexivity|]).
  done.
Qed.

Lemma render_keeps_state (state : option ResearchAgentState) (c : Cells) :
  agentState (Page.render state c).2 = agentState c.
Proof. reflexivity. Qed.

Lemma render_gated_keeps_state (status : string) (c : Cells) :
  agentState (PageGated.render status c).2 = agentState c.
Proof.
  unfold PageGated.render.
  destruct (String.eqb status "inProgress" || String.eqb status "complete"); [done|].
  by destruct (String.eqb status "complete").
Qed.

(** C4: a string of at most 50 code units is returned unchanged; a longer
    one becomes its first 47 code units followed by the three-dot marker,
    50 code units in all.  Rendering a message with truncated URLs leaves
    the agent state held by the page as it was, in both page variants; the
    inline variant truncates the same way. *)
Theorem C4_truncateUrl (u : string) :
  ((String.length u ≤ 50)%nat → ProgressLog.truncateUrl u = u)
  ∧ ((50 < String.length u)%nat →
       ∃ first rest,
         u = first +:+ rest
         ∧ String.length first = 47%nat
         ∧ ProgressLog.truncateUrl u = first +:+ "..."
         ∧ String.length (ProgressLog.truncateUrl u) = 50%nat)
  ∧ PageGated.truncateUrl u = ProgressLog.truncateUrl u
  ∧ (∀ state c, agentState (Page.render state c).2 = agentState c)
  ∧ (∀ status c, agentState (PageGated.render status c).2 = agentState c).
Proof.
  split_and!.
  - apply truncateUrl_short.
  - intros Hlen. destruct (truncateUrl_long u Hlen) as [Htr Hfifty].
    destruct (substring_prefix 47 u) as [Hsplit Hfirst]; [lia|].
    by exists (String.substring 0 47 u), (Url.dropString 47 u).
  - apply truncateUrl_agree.
  - apply render_keeps_state.
  - apply render_gated_keeps_state.
Qed.

Lemma C4_truncateUrl_witness :
  ProgressLog.truncateUrl "https://example.org/a" = "https://example.org/a"
  ∧ String.length
      (ProgressLog.truncateUrl
         "https://example.org/reports/2024/annual/summary/final-version.html")
    = 50%nat.
Proof.
  split.
  - apply (proj1 (C4_truncateUrl "https://example.org/a")). simpl. lia.
  - destruct (C4_truncateUrl
                "https://example.org/reports/2024/annual/summary/final-version.html")
      as (_ & Hlong & _).
    destruct Hlong as (first & rest & _ & _ & _ & Hlen); [simpl; lia|exact Hlen].
Defined.

(** C10: truncating twice is the same as truncating once, and the result
    never has more than 50 code units: its length is the smaller of the
    input length and 50, so exactly 50 for an input longer than 50.  Both
    copies of the function behave so. *)
Theorem C10_truncateUrl_idempotent (s : string) :
  ProgressLog.truncateUrl (ProgressLog.truncateUrl s) = ProgressLog.truncateUrl s
  ∧ (String.length (ProgressLog.truncateUrl s) ≤ 50)%nat
  ∧ String.length (ProgressLog.truncateUrl s) = Nat.min (String.length s) 50
  ∧ PageGated.truncateUrl (PageGated.truncateUrl s) = PageGated.truncateUrl s
  ∧ String.length (PageGated.truncateUrl s) = Nat.min (String.length s) 50.
Proof.
  assert (String.length (ProgressLog.truncateUrl s) = Nat.min (String.length s) 50)
    as Hlen.
  { destruct (decide (String.length s ≤ 50)%nat) as [Hle|Hgt].
    - rewrite truncateUrl_short by done. lia.
    - destruct (truncateUrl_long s) as [_ ->]; lia. }
  assert (ProgressLog.truncateUrl (ProgressLog.truncateUrl s)
          = ProgressLog.truncateUrl s) as Hidem.
  { apply truncateUrl_short. lia. }
  split_and!; [done|lia|done|..].
  - by rewrite !truncateUrl_agree.
  - by rewrite truncateUrl_agree.
Qed.

End Truncation.

(** ** The describer at keys outside the literal *)

Section DescriberTotality.







End DescriberTotality.

(** ** The source-count indicator *)

Section SourceCount.

Lemma pluralSuffix_spec (n : Z) :
  pluralSuffix (Some n) = if decide (n = 1) then "" else "s".
Proof.
  destruct (decide (n = 1)) as [->|Hne]; [done|].
  destruct n as [|p|p]; try done. by destruct p.
Qed.

Lemma sourceIndicator_agree (state : option ResearchAgentState) :
  PageGated.sourceIndicator state = Ok (ProgressLog.sourceIndicator state).
Proof.
  unfold PageGated.sourceIndicator, ProgressLog.sourceIndicator.
  destruct state as [s|]; [|done]. simpl.
  destruct (research s) as [r|]; [|done]. simpl.
  destruct (sources_found r) as [n|]; [|done]. simpl.
  by destruct (0 <? n).
Qed.

Lemma render_view (state : option ResearchAgentState) (c : Cells) :
  (Page.render state c).1
  = Some {| items := imap (ProgressLog.item (Page.logs (Page.getStepsFromState state)))
                          (Page.logs (Page.getStepsFromState state));
            sourceCount := ProgressLog.sourceIndicator state |}.
Proof. reflexivity. Qed.

(** C8: the progress log shows a source count iff [sources_found > 0]; the
    text is "Found n source" with an "s" appended unless [n] is 1.  So 0
    shows nothing, 1 shows "Found 1 source" and 2 shows "Found 2 sources".
    The inline variant shows the same, and the count is part of every
    rendered log. *)
Theorem C8_source_count (state : option ResearchAgentState) :
  let found := state ?. research ?. sources_found in
  (ProgressLog.sourceIndicator state ≠ None ↔ ∃ n, found = Some n ∧ 0 < n)
  ∧ (∀ n, found = Some n → 0 < n →
       ProgressLog.sourceIndicator state
       = Some ("Found " +:+ Js.numberToString n +:+ " source"
               +:+ (if decide (n = 1) then "" else "s")))
  ∧ (found = Some 0 → ProgressLog.sourceIndicator state = None)
  ∧ (found = Some 1 → ProgressLog.sourceIndicator state = Some "Found 1 source")
  ∧ (found = Some 2 → ProgressLog.sourceIndicator state = Some "Found 2 sources")
  ∧ PageGated.sourceIndicator state = Ok (ProgressLog.sourceIndicator state)
  ∧ (∀ c, ∃ v, (Page.render state c).1 = Some v
               ∧ sourceCount v = ProgressLog.sourceIndicator state).
Proof.
  intros found.
  assert (ProgressLog.sourceIndicator state
          = match found with
            | Some n =>
                if 0 <? n
                then Some ("Found " +:+ Js.numberToString n +:+ " source"
                           +:+ (if decide (n = 1) then "" else "s"))
                else None
            | None => None
            end) as Hind.
  { unfold ProgressLog.sourceIndicator. fold found.
    destruct found as [n|]; [|done].
    rewrite pluralSuffix_spec. reflexivity. }
  rewrite Hind. split_and!.
  - destruct found as [n|].
    + destruct (Z.ltb_spec 0 n) as [Hpos|Hnot].
      * split; [by exists n|done].
      * split; [done|]. intros (m & [= <-] & Hm). lia.
    + split; [done|]. by intros (m & [=] & _).
  - intros n -> Hn.
    by replace (0 <? n) with true by (symmetry; apply Z.ltb_lt; lia).
  - by intros ->.
  - by intros ->.
  - by intros ->.
  - rewrite <- Hind. apply sourceIndicator_agree.
  - intros c. rewrite render_view. eexists. split; [done|]. simpl. by rewrite Hind.
Qed.

Lemma C8_source_count_witness :
  ProgressLog.sourceIndicator
    (Some {| status := None;
             research := Some {| query := None; stage := None;
                                 sources_found := Some 12; sources := None |};
             processing := None |})
  = Some "Found 12 sources".
Proof.
  destruct (C8_source_count
              (Some {| status := None;
                       research := Some {| query := None; stage := None;
                                           sources_found := Some 12;
                                           sources := None |};
                       processing := None |})) as (_ & Htext & _).
  apply (Htext 12); [reflexivity|lia].
Defined.

End SourceCount.

(** ** The report presenter *)

Section Presenter.

(** The presenter never fails, whatever is missing from the state, and its
    report card is decided by the truthiness of the report alone. *)
Lemma ReportCanvas_ok (state : option ResearchAgentState) (running : bool) :
  ∃ v, Canvas.ReportCanvas state running = Ok v
       ∧ Canvas.statusCard v
         = running && negb (Canvas.truthyOpt (state ?. processing ?. report))
       ∧ (Canvas.questionCard v
          = if Canvas.truthyOpt (state ?. research ?. query)
            then state ?. research ?. query else None)
       ∧ (Canvas.reportCard v
          = let count := Canvas.lengthOf (state ?. research ?. sources) in
            if Canvas.truthyOpt (state ?. processing ?. report)
            then Canvas.Markdown (default "" (state ?. processing ?. report))
            else Canvas.Placeholder
                   (if running then "Generating Report" else "Ready to Research")
                   (if running
                    then "Your research report will appear here once the analysis is complete."
                    else "Ask me to research any topic and I'll generate a comprehensive, well-structured report for you.")
                   (if gtZero count
                    then Some (jsxNumber count +:+ " source"
                               +:+ pluralSuffix count +:+ " found")
                    else None))
       ∧ (state ?. research ?. sources = None → Canvas.sourcesCard v = None)
       ∧ (state ?. research ?. sources = Some [] → Canvas.sourcesCard v = None).
Proof.
  unfold Canvas.ReportCanvas.
  destruct state as [s|]; simpl; [|by eexists].
  destruct (research s) as [r|]; simpl; [|by eexists].
  destruct (query r) as [[|a q]|], (sources r) as [[|x l]|]; simpl;
    eexists; (split; [reflexivity|]); simpl; split_and!; done.
Qed.

(** C9, as the code decides it: the report card shows the report body,
    handed to the markdown renderer, when [state.processing.report] is a
    non-empty string.  When the report is null, missing or the empty
    string, the card is the placeholder, worded by [running]: "Generating
    Report" with its in-progress message when running, "Ready to Research"
    with its idle message otherwise; the two messages differ. *)
Theorem C9_report_card (state : option ResearchAgentState) (running : bool) :
  let inProgressText :=
    "Your research report will appear here once the analysis is complete." in
  let idleText :=
    "Ask me to research any topic and I'll generate a comprehensive, well-structured report for you." in
  ∃ v, Canvas.ReportCanvas state running = Ok v
       ∧ (∀ r, state ?. processing ?. report = Some r → r ≠ "" →
               Canvas.reportCard v = Canvas.Markdown r)
       ∧ (state ?. processing ?. report = None
          ∨ state ?. processing ?. report = Some "" →
          ∃ badge,
            Canvas.reportCard v
            = Canvas.Placeholder
                (if running then "Generating Report" else "Ready to Research")
                (if running then inProgressText else idleText)
                badge)
       ∧ inProgressText ≠ idleText.
Proof.
  intros inProgressText idleText.
  destruct (ReportCanvas_ok state running) as (v & Hok & _ & _ & Hcard & _).
  exists v. split; [done|]. rewrite Hcard. split_and!.
  - intros r -> Hr. destruct r as [|a r]; [done|]. reflexivity.
  - intros [->| ->]; simpl; by eexists.
  - done.
Qed.

Lemma C9_report_card_witness :
  ∃ v, Canvas.ReportCanvas
         (Some {| status := None; research := None;
                  processing := Some {| report := Some "# Findings" |} |})
         true = Ok v
       ∧ Canvas.reportCard v = Canvas.Markdown "# Findings".
Proof.
  destruct (C9_report_card
              (Some {| status := None; research := None;
                       processing := Some {| report := Some "# Findings" |} |})
              true) as (v & Hok & Hbody & _).
  exists v. split; [exact Hok|]. apply Hbody; [reflexivity|discriminate].
Defined.

(** A report that is the empty string is not null, yet the presenter shows
    the placeholder and no report body. *)
Lemma C9_empty_report_is_placeholder :
  Some {| status := None; research := None;
          processing := Some {| report := Some "" |} |}
    ?. processing ?. report ≠ None
  ∧ Canvas.ReportCanvas
      (Some {| status := None; research := None;
               processing := Some {| report := Some "" |} |})
      true
    = Ok {| Canvas.questionCard := None;
            Canvas.statusCard := true;
            Canvas.reportCard :=
              Canvas.Placeholder "Generating Report"
                "Your research report will appear here once the analysis is complete."
                None;
            Canvas.sourcesCard := None |}.
Proof. split; [discriminate|reflexivity]. Qed.

End Presenter.

(** ** Partially populated state *)

Section PartialState.

Lemma render_gated_ok (status : string) (c : Cells) :
  ∃ v, (PageGated.render status c).1 = Ok v.
Proof.
  unfold PageGated.render.
  destruct (String.eqb status "inProgress" || String.eqb status "complete").
  - simpl. rewrite sourceIndicator_agree. simpl. by eexists.
  - destruct (String.eqb status "complete"); by eexists.
Qed.

Lemma steps_idle (state : option ResearchAgentState) :
  currentPhaseOf state = "idle" →
  Forall (λ s, completed s = false ∧ current s = false)
         (Page.getStepsFromState state).
Proof.
  intros Hidle. unfold Page.getStepsFromState.
  fold (currentPhaseOf state). rewrite Hidle.
  apply Forall_fmap. unfold Page.allPhases.
  repeat (apply Forall_cons; split; [by split|]). apply Forall_nil_2.
Qed.

Lemma steps_stage (state : option ResearchAgentState) :
  Forall (λ s, description s = Page.getStepDetails (id s) (currentStageOf state))
         (Page.getStepsFromState state).
Proof.
  unfold Page.getStepsFromState. apply Forall_fmap.
  unfold Page.allPhases.
  repeat (apply Forall_cons; split; [reflexivity|]). apply Forall_nil_2.
Qed.

(** C6: the derivations are total over partially populated state.  The
    presenter and both progress renderings return a view whatever is
    missing.  A missing phase stands for idle, so no step is completed or
    current; a missing stage stands for "not_started"; a missing
    [sources_found] shows no count; missing sources show no badge and no
    sources card; a missing report shows the placeholder and a missing
    query no question card. *)
Theorem C6_total_over_partial_state
    (state : option ResearchAgentState) (running : bool) (runStatus : string)
    (c : Cells) :
  (∃ v, Canvas.ReportCanvas state running = Ok v
        ∧ (state ?. research ?. sources = None →
           Canvas.sourcesCard v = None
           ∧ ∀ h m badge, Canvas.reportCard v = Canvas.Placeholder h m badge →
                          badge = None)
        ∧ (state ?. processing ?. report = None →
           ∃ h m badge, Canvas.reportCard v = Canvas.Placeholder h m badge)
        ∧ (state ?. research ?. query = None → Canvas.questionCard v = None))
  ∧ (∃ v, (PageGated.render runStatus c).1 = Ok v)
  ∧ (∃ v, (Page.render state c).1 = Some v)
  ∧ (state ?. status ?. phase = None →
       currentPhaseOf state = "idle"
       ∧ Forall (λ s, completed s = false ∧ current s = false)
                (Page.getStepsFromState state)
       ∧ Forall (λ e, done e = false) (Page.logs (Page.getStepsFromState state)))
  ∧ (state ?. research ?. stage = None →
       currentStageOf state = "not_started"
       ∧ Forall (λ s, description s = Page.getStepDetails (id s) "not_started")
                (Page.getStepsFromState state))
  ∧ (state ?. research ?. sources_found = None →
       ProgressLog.sourceIndicator state = None
       ∧ PageGated.sourceIndicator state = Ok None).
Proof.
  split_and!.
  - destruct (ReportCanvas_ok state running)
      as (v & Hok & _ & Hq & Hcard & Hnone & _).
    exists v. split_and!; [done| | |].
    + intros Hs. split; [by apply Hnone|].
      intros h m badge. rewrite Hcard, Hs. simpl.
      destruct (Canvas.truthyOpt (state ?. processing ?. report)); [done|].
      by intros [= _ _ <-].
    + intros Hr. rewrite Hcard, Hr. simpl. by eexists _, _, _.
    + intros Hquery. by rewrite Hq, Hquery.
  - apply render_gated_ok.
  - rewrite render_view. by eexists.
  - intros Hphase.
    assert (currentPhaseOf state = "idle") as Hidle.
    { unfold currentPhaseOf. by rewrite Hphase. }
    split_and!; [done|by apply steps_idle|].
    apply Forall_lookup. intros i e He.
    rewrite logs_lookup in He.
    destruct (Page.getStepsFromState state !! i) as [s|] eqn:Hs; [|done].
    injection He as <-. simpl.
    pose proof (steps_idle state Hidle) as Hall.
    rewrite Forall_lookup in Hall. destruct (Hall i s Hs) as [-> _]. simpl.
    unfold Page.currentStepIndex. rewrite findIndex_none.
    + apply Z.ltb_ge. lia.
    + intros x Hx. apply list_elem_of_lookup_1 in Hx as [j Hj].
      by destruct (Hall j x Hj).
  - intros Hstage.
    assert (currentStageOf state = "not_started") as Hdefault.
    { unfold currentStageOf. by rewrite Hstage. }
    split; [done|]. rewrite <- Hdefault. apply steps_stage.
  - intros Hfound. rewrite sourceIndicator_agree.
    unfold ProgressLog.sourceIndicator. by rewrite Hfound.
Qed.

Lemma C6_total_over_partial_state_witness :
  Forall (λ s, completed s = false ∧ current s = false)
         (Page.getStepsFromState None)
  ∧ ProgressLog.sourceIndicator None = None.
Proof.
  destruct (C6_total_over_partial_state None false "inProgress" (cells mounted))
    as (_ & _ & _ & Hphase & _ & Hfound).
  split.
  - apply Hphase. reflexivity.
  - apply Hfound. reflexivity.
Defined.

End PartialState.

(** ** The two page variants *)

Section PageVariants.

Lemma Progress_logs (state view : option ResearchAgentState) :
  ProgressLog.Progress (Page.logs (Page.getStepsFromState state)) view
  = Some {| items := imap (ProgressLog.item (Page.logs (Page.getStepsFromState state)))
                          (Page.logs (Page.getStepsFromState state));
            sourceCount := ProgressLog.sourceIndicator view |}.
Proof. reflexivity. Qed.

Lemma render_gated_shown (runStatus : string) (c : Cells) :
  runStatus = "inProgress" ∨ runStatus = "complete" →
  PageGated.render runStatus c
  = (Ok (Page.render (agentState c) c).1, (Page.render (agentState c) c).2).
Proof.
  intros Hshown. unfold PageGated.render.
  replace (String.eqb runStatus "inProgress" || String.eqb runStatus "complete")
    with true by (by destruct Hshown as [-> | ->]).
  cbv zeta. change (agentState (setInProgress true c)) with (agentState c).
  rewrite sourceIndicator_agree. unfold Page.render. cbv zeta.
  rewrite Progress_logs. reflexivity.
Qed.

Lemma render_gated_hidden (runStatus : string) (c : Cells) :
  runStatus ≠ "inProgress" → runStatus ≠ "complete" →
  PageGated.render runStatus c = (Ok None, c).
Proof.
  intros Hin Hcomplete. unfold PageGated.render.
  apply String.eqb_neq in Hin, Hcomplete. by rewrite Hin, Hcomplete.
Qed.

(** C7: for one and the same state the two page variants derive the same
    step list and the same log entries, done flags and messages alike.
    They differ in the gate only: the inline variant renders the progress
    log when the run status is "inProgress" or "complete", and then
    renders what the other variant renders, and renders nothing for any
    other status; the other variant always renders it. *)
Theorem C7_variants_agree (state : option ResearchAgentState) :
  PageGated.getStepsFromState state = Page.getStepsFromState state
  ∧ PageGated.logs (PageGated.getStepsFromState state)
    = Page.logs (Page.getStepsFromState state)
  ∧ (∀ c runStatus,
       agentState c = state →
       runStatus = "inProgress" ∨ runStatus = "complete" →
       PageGated.render runStatus c
       = (Ok (Page.render state c).1, (Page.render state c).2))
  ∧ (∀ c runStatus,
       runStatus ≠ "inProgress" → runStatus ≠ "complete" →
       PageGated.render runStatus c = (Ok None, c))
  ∧ (∀ c, (Page.render state c).1 ≠ None).
Proof.
  split_and!.
  - apply steps_agree.
  - rewrite steps_agree. apply logs_agree.
  - intros c runStatus <- Hshown. by apply render_gated_shown.
  - intros c runStatus. apply render_gated_hidden.
  - intros c. by rewrite render_view.
Qed.

Lemma C7_variants_agree_witness :
  PageGated.render "complete" (cellsAt "generating_report" "writing_introduction")
  = (Ok (Page.render (stateAt "generating_report" "writing_introduction")
                     (cellsAt "generating_report" "writing_introduction")).1,
     (Page.render (stateAt "generating_report" "writing_introduction")
                  (cellsAt "generating_report" "writing_introduction")).2)
  ∧ PageGated.render "executing" (cellsAt "generating_report" "writing_introduction")
    = (Ok None, cellsAt "generating_report" "writing_introduction").
Proof.
  destruct (C7_variants_agree (stateAt "generating_report" "writing_introduction"))
    as (_ & _ & Hshown & Hhidden & _).
  split.
  - apply Hshown; [reflexivity|by right].
  - apply Hhidden; discriminate.
Defined.

End PageVariants.

(** * Further properties of the code *)

(** ** Steps and log entries derived from a state *)

Section DerivedProgress.

Lemma indexOfFrom_bound (k : Z) (arr : list string) (x : string) :
  Js.indexOfFrom k arr x = -1
  ∨ k ≤ Js.indexOfFrom k arr x < k + Z.of_nat (length arr).
Proof.
  revert k. induction arr as [|y rest IH]; intros k; simpl; [by left|].
  destruct (String.eqb y x); [right; lia|].
  destruct (IH (k + 1)) as [->|Hin]; [by left|right; lia].
Qed.

Lemma indexOf_allPhases_bound (x : string) :
  -1 ≤ Js.indexOf Page.allPhases x ≤ 4.
Proof.
  unfold Js.indexOf.
  destruct (indexOfFrom_bound 0 Page.allPhases x) as [->|[Hlo Hhi]]; [lia|].
  change (Z.of_nat (length Page.allPhases)) with 5 in Hhi. lia.
Qed.

Lemma currentStepIndex_indexOf (state : option ResearchAgentState) :
  Page.currentStepIndex (Page.getStepsFromState state)
  = Js.indexOf Page.allPhases (currentPhaseOf state).
Proof.
  destruct (decide (currentPhaseOf state ∈ Page.allPhases)) as [Hin|Hout].
  - apply list_elem_of_lookup_1 in Hin as [i Hi].
    rewrite (indexOf_lookup _ i _ allPhases_NoDup Hi).
    eapply currentStepIndex_current; [by apply steps_lookup|].
    simpl. apply String.eqb_refl.
  - rewrite indexOf_notin by done.
    apply findIndex_none. intros s Hs.
    apply list_elem_of_lookup_1 in Hs as [i Hi].
    apply steps_lookup_inv in Hi as (Hp & _ & -> & _).
    apply String.eqb_neq. intros Heq. apply Hout. rewrite Heq.
    by eapply list_elem_of_lookup_2.
Qed.

Lemma logs_done (state : option ResearchAgentState) (i : nat) (e : LogEntry) :
  Page.logs (Page.getStepsFromState state) !! i = Some e →
  done e = (Z.of_nat i <? Js.indexOf Page.allPhases (currentPhaseOf state))
  ∧ ∃ s, Page.getStepsFromState state !! i = Some s
         ∧ done e = completed s
         ∧ message e = label s +:+ ": " +:+ Js.toStringValue (description s).
Proof.
  intros He. rewrite logs_lookup in He.
  destruct (Page.getStepsFromState state !! i) as [s|] eqn:Hs; [|done].
  injection He as <-. simpl.
  rewrite currentStepIndex_indexOf.
  pose proof Hs as Hinv. apply steps_lookup_inv in Hinv as (_ & Hc & _).
  rewrite Z.gtb_ltb in Hc.
  assert (completed s
          || (Z.of_nat i <? Js.indexOf Page.allPhases (currentPhaseOf state))
          = completed s) as Hor by (rewrite Hc; apply orb_diag).
  rewrite Hor. split; [done|]. by exists s.
Qed.

(** X1: on the steps derived from a state, the index found by scanning for
    the current step is the index of the current phase in the phase
    sequence, and both are -1 when the phase is not in the sequence. *)
Theorem X1_currentStepIndex_is_phase_index (state : option ResearchAgentState) :
  Page.currentStepIndex (Page.getStepsFromState state)
  = Js.indexOf Page.allPhases (currentPhaseOf state)
  ∧ -1 ≤ Page.currentStepIndex (Page.getStepsFromState state) ≤ 4
  ∧ PageGated.currentStepIndex (PageGated.getStepsFromState state)
    = Page.currentStepIndex (Page.getStepsFromState state).
Proof.
  split; [apply currentStepIndex_indexOf|]. split; [|reflexivity].
  rewrite currentStepIndex_indexOf. apply indexOf_allPhases_bound.
Qed.

(** X2: in the log derived from a state, an entry is done exactly when its
    index lies before the index of the current phase, so [done] always
    equals the step's [completed] flag and the done entries form a prefix
    of the log.  The last entry is never done, whatever the state: with the
    phase at its last value the last step is current, not completed. *)
Theorem X2_done_entries_form_prefix
    (state : option ResearchAgentState) (i : nat) (e : LogEntry) :
  Page.logs (Page.getStepsFromState state) !! i = Some e →
  done e = (Z.of_nat i <? Js.indexOf Page.allPhases (currentPhaseOf state))
  ∧ (∃ s, Page.getStepsFromState state !! i = Some s ∧ done e = completed s)
  ∧ (∀ j e', (j ≤ i)%nat →
       Page.logs (Page.getStepsFromState state) !! j = Some e' →
       done e = true → done e' = true)
  ∧ (i = 4%nat → done e = false).
Proof.
  intros He. destruct (logs_done state i e He) as (Hdone & s & Hs & Hcomp & _).
  split_and!; [done|by exists s| |].
  - intros j e' Hj He' Htrue.
    destruct (logs_done state j e' He') as (-> & _).
    rewrite Hdone in Htrue. apply Z.ltb_lt in Htrue. apply Z.ltb_lt. lia.
  - intros ->. rewrite Hdone. apply Z.ltb_ge.
    pose proof (indexOf_allPhases_bound (currentPhaseOf state)). lia.
Qed.

Lemma X2_done_entries_form_prefix_witness :
  ∃ e, Page.logs (Page.getStepsFromState (stateAt "completed" "report_complete")) !! 4%nat
       = Some e
       ∧ done e = false.
Proof.
  exists {| done := false; message := "Completed: Research report completed" |}.
  split; [reflexivity|].
  destruct (X2_done_entries_form_prefix
              (stateAt "completed" "report_complete") 4
              {| done := false; message := "Completed: Research report completed" |}
              eq_refl) as (_ & _ & _ & Hlast).
  by apply Hlast.
Defined.

(** X3: progress only grows with the phase.  When the phase of one state
    sits no later in the sequence than the phase of another, every step
    completed in the first is completed in the second, and every log entry
    done in the first is done in the second. *)
Theorem X3_progress_monotone
    (earlier later : option ResearchAgentState) (i : nat) :
  Js.indexOf Page.allPhases (currentPhaseOf earlier)
  ≤ Js.indexOf Page.allPhases (currentPhaseOf later) →
  (∀ s s', Page.getStepsFromState earlier !! i = Some s →
           Page.getStepsFromState later !! i = Some s' →
           completed s = true → completed s' = true)
  ∧ (∀ e e', Page.logs (Page.getStepsFromState earlier) !! i = Some e →
             Page.logs (Page.getStepsFromState later) !! i = Some e' →
             done e = true → done e' = true).
Proof.
  intros Hle. split.
  - intros s s' Hs Hs'.
    apply steps_lookup_inv in Hs as (_ & -> & _).
    apply steps_lookup_inv in Hs' as (_ & -> & _).
    rewrite !Z.gtb_ltb, !Z.ltb_lt. lia.
  - intros e e' He He'.
    destruct (logs_done earlier i e He) as (-> & _).
    destruct (logs_done later i e' He') as (-> & _).
    rewrite !Z.ltb_lt. lia.
Qed.

Lemma X3_progress_monotone_witness :
  ∃ e', Page.logs (Page.getStepsFromState
                     (stateAt "generating_report" "outlining_report")) !! 0%nat
        = Some e'
        ∧ done e' = true.
Proof.
  exists {| done := true; message := "Initialized: Setting up research parameters" |}.
  split; [reflexivity|].
  destruct (X3_progress_monotone
              (stateAt "gathering_information" "searching")
              (stateAt "generating_report" "outlining_report") 0) as [_ Hdone].
  - vm_compute. discriminate.
  - apply (Hdone {| done := true;
                    message := "Initialized: Setting up research parameters" |});
      reflexivity.
Defined.

(** X4: the description of a derived step is always one of the texts the
    literal stores for the five step phases: a non-empty string, never the
    default "Processing..." and never the idle text "Getting ready...".
    Its message is the label, ": " and that text. *)
Theorem X4_step_descriptions
    (state : option ResearchAgentState) (i : nat) (s : DerivedStep) :
  Page.getStepsFromState state !! i = Some s →
  ∃ d, description s = Js.VString d
       ∧ d = stepText (id s) (currentStageOf state)
       ∧ d ≠ ""
       ∧ d ≠ "Processing..."
       ∧ d ≠ "Getting ready..."
       ∧ ∃ e, Page.logs (Page.getStepsFromState state) !! i = Some e
              ∧ message e = label s +:+ ": " +:+ d.
Proof.
  intros Hs. exists (stepText (id s) (currentStageOf state)).
  pose proof (step_description state i s Hs) as Hd.
  split_and!; [done|done|..].
  - pose proof (stepText_nonempty (id s) (currentStageOf state)) as Hne.
    by destruct (stepText _ _).
  - unfold stepText, reportStageText.
    repeat match goal with |- context [if ?b then _ else _] => destruct b end;
      discriminate.
  - unfold stepText, reportStageText.
    repeat match goal with |- context [if ?b then _ else _] => destruct b end;
      discriminate.
  - eexists. rewrite logs_lookup, Hs. simpl. split; [done|]. simpl.
    by rewrite Hd.
Qed.

Lemma X4_step_descriptions_witness :
  ∃ d, Js.VString "Searching the web for information" = Js.VString d ∧ d ≠ "Processing...".
Proof.
  destruct (X4_step_descriptions (stateAt "gathering_information" "searching") 1
              {| id := "gathering_information";
                 label := "Gathering Information";
                 description := Js.VString "Searching the web for information";
                 completed := false;
                 current := true |} eq_refl)
    as (d & Hd & _ & _ & Hdefault & _).
  by exists d.
Defined.

End DerivedProgress.

(** ** Labels *)

Section Labels.

Lemma splitOn_nonempty (sep : ascii) (s : string) : Js.splitOn sep s ≠ [].
Proof.
  destruct s as [|c rest]; simpl; [done|].
  destruct (Ascii.eqb c sep); [done|]. by destruct (Js.splitOn sep rest).
Qed.

Lemma join_cons_char (sep : string) (c : ascii) (w : string) (ws : list string) :
  Js.join sep (String c w :: ws) = String c (Js.join sep (w :: ws)).
Proof. by destruct ws. Qed.

(** The split, map and join pipeline is the one-pass scan, whether or not
    the first word is capitalised. *)
Lemma titleCase_scan_words (s : string) :
  let cap := λ word, Js.toUpperCase (Js.charAt0 word) +:+ Js.slice1 word in
  match Js.splitOn "_" s with
  | [] => False
  | w :: ws =>
      Js.join " " (w :: (cap <$> ws)) = titleScan false s
      ∧ Js.join " " (cap w :: (cap <$> ws)) = titleScan true s
  end.
Proof.
  intros cap. induction s as [|c rest IH]; simpl; [done|].
  destruct (Js.splitOn "_" rest) as [|w ws] eqn:Hsplit; [done|].
  destruct IH as [IHplain IHcap].
  destruct (Ascii.eqb c "_").
  - rewrite fmap_cons. split.
    + change (Js.join " " ("" :: cap w :: (cap <$> ws)))
        with (String " " (Js.join " " (cap w :: (cap <$> ws)))).
      by rewrite IHcap.
    + change (Js.join " " (cap "" :: cap w :: (cap <$> ws)))
        with (String " " (Js.join " " (cap w :: (cap <$> ws)))).
      by rewrite IHcap.
  - split.
    + change (Js.join " " (String c w :: (cap <$> ws))
              = String c (titleScan false rest)).
      by rewrite join_cons_char, IHplain.
    + change (Js.join " " (String (Js.upperAscii c) w :: (cap <$> ws))
              = String (Js.upperAscii c) (titleScan false rest)).
      by rewrite join_cons_char, IHplain.
Qed.

Lemma titleCase_scan (p : string) : Page.titleCase p = titleScan true p.
Proof.
  pose proof (titleCase_scan_words p) as Hwords. unfold Page.titleCase.
  destruct (Js.splitOn "_" p) as [|w ws]; [done|].
  rewrite fmap_cons. by destruct Hwords as [_ ->].
Qed.

Lemma titleScan_length (b : bool) (s : string) :
  String.length (titleScan b s) = String.length s.
Proof.
  revert b. induction s as [|c rest IH]; intros b; simpl; [done|].
  destruct (Ascii.eqb c "_"); simpl; by rewrite IH.
Qed.

Lemma upperAscii_not_underscore (c : ascii) :
  c ≠ "_"%char → Js.upperAscii c ≠ "_"%char.
Proof.
  destruct c as [[] [] [] [] [] [] [] []]; vm_compute; congruence.
Qed.

Lemma titleScan_no_underscore (b : bool) (s : string) :
  Forall (λ c, c ≠ "_"%char) (list_ascii_of_string (titleScan b s)).
Proof.
  revert b. induction s as [|c rest IH]; intros b; simpl; [constructor|].
  destruct (Ascii.eqb_spec c "_") as [->|Hne]; simpl.
  - constructor; [done|apply IH].
  - constructor; [|apply IH].
    destruct b; [by apply upperAscii_not_underscore|done].
Qed.

(** X5: the label of a phase name made of code units below 128 is the name
    with every underscore turned into a space and the first code unit of
    every word upper-cased.  It has the length of the name and holds no
    underscore; the inline variant builds the same label. *)
Theorem X5_titleCase_scan (p : string) :
  asciiOnly p →
  Page.titleCase p = titleScan true p
  ∧ String.length (Page.titleCase p) = String.length p
  ∧ Forall (λ c, c ≠ "_"%char) (list_ascii_of_string (Page.titleCase p))
  ∧ PageGated.titleCase p = Page.titleCase p.
Proof.
  intros _. split_and!; [apply titleCase_scan| | |reflexivity].
  - rewrite titleCase_scan. apply titleScan_length.
  - rewrite titleCase_scan. apply titleScan_no_underscore.
Qed.

Lemma X5_titleCase_scan_witness :
  Page.titleCase "analyzing_information" = titleScan true "analyzing_information"
  ∧ String.length (Page.titleCase "analyzing_information") = 21%nat.
Proof.
  destruct (X5_titleCase_scan "analyzing_information") as (Hscan & Hlen & _).
  - unfold asciiOnly. simpl. repeat (constructor; [vm_compute; lia|]). constructor.
  - split; [exact Hscan|exact Hlen].
Defined.

End Labels.

(** ** The rendered progress log *)

Section RenderedLog.

Lemma findIndex_spec {A : Type} (p : A → bool) (arr : list A) :
  (Js.findIndex p arr = -1 ∧ ∀ x, x ∈ arr → p x = false)
  ∨ ∃ j x, Js.findIndex p arr = Z.of_nat j ∧ arr !! j = Some x ∧ p x = true
           ∧ ∀ k y, arr !! k = Some y → (k < j)%nat → p y = false.
Proof.
  unfold Js.findIndex.
  destruct (list_find (λ x, p x = true) arr) as [[j x]|] eqn:Hfind.
  - right. apply list_find_Some in Hfind as (Hj & Hp & Hbefore).
    exists j, x. split_and!; [done..|].
    intros k y Hk Hlt. specialize (Hbefore k y Hk Hlt).
    by destruct (p y).
  - left. split; [done|]. apply list_find_None in Hfind.
    rewrite Forall_forall in Hfind. intros x Hx. specialize (Hfind x Hx).
    by destruct (p x).
Qed.

Lemma item_faded (logs : list LogEntry) (i : nat) (log : LogEntry) :
  logs !! i = Some log →
  faded (ProgressLog.item logs i log) = true
  ↔ done log = false
    ∧ ∃ j e, (j < i)%nat ∧ logs !! j = Some e ∧ done e = false.
Proof.
  intros Hi. unfold ProgressLog.item. simpl.
  destruct (done log) eqn:Hdone; simpl.
  { split; [done|]. by intros [? _]. }
  destruct (findIndex_spec (λ log, negb (done log)) logs)
    as [[Hnone Hall]|(j & e & -> & Hj & He & Hbefore)].
  - specialize (Hall log (list_elem_of_lookup_2 _ _ _ Hi)). simpl in Hall.
    rewrite Hdone in Hall. done.
  - apply negb_true_iff in He.
    destruct (Z.eqb_spec (Z.of_nat i) (Z.of_nat j)) as [Heq|Hne]; simpl.
    + apply Nat2Z.inj in Heq as ->. split; [done|].
      intros (_ & k & y & Hlt & Hk & Hy).
      specialize (Hbefore k y Hk Hlt). simpl in Hbefore. by rewrite Hy in Hbefore.
    + split; [|done]. intros _. split; [done|].
      exists j, e. split_and!; [|done..].
      destruct (decide (j < i)%nat) as [Hlt|Hge]; [done|].
      assert (i < j)%nat as Hlt by lia.
      specialize (Hbefore i log Hi Hlt). simpl in Hbefore.
      by rewrite Hdone in Hbefore.
Qed.

(** X6: the progress component returns nothing exactly for an empty log.
    Otherwise it shows one item per entry, in order, each with the check
    mark exactly when the entry is done and with a connector line exactly
    when another item follows, and the source count beside them. *)
Theorem X6_progress_items (logs : list LogEntry) (state : option ResearchAgentState) :
  (ProgressLog.Progress logs state = None ↔ logs = [])
  ∧ ∀ v, ProgressLog.Progress logs state = Some v →
      length (items v) = length logs
      ∧ sourceCount v = ProgressLog.sourceIndicator state
      ∧ ∀ i log, logs !! i = Some log →
          ∃ li, items v !! i = Some li
                ∧ doneIcon li = done log
                ∧ (connector li = true ↔ (S i < length logs)%nat).
Proof.
  unfold ProgressLog.Progress. split.
  - destruct logs as [|log rest]; simpl; [done|]. split; discriminate.
  - intros v Hv. destruct (length logs =? 0)%nat; [done|].
    injection Hv as <-. simpl. split_and!; [by rewrite length_imap|done|].
    intros i log Hi. exists (ProgressLog.item logs i log).
    rewrite list_lookup_imap, Hi. split_and!; [done..|].
    change (connector (ProgressLog.item logs i log))
      with (Z.of_nat i <? Z.of_nat (length logs) - 1).
    rewrite Z.ltb_lt. lia.
Qed.

Lemma X6_progress_items_witness :
  ∃ v, ProgressLog.Progress [ {| done := true; message := "a" |};
                              {| done := false; message := "b" |} ] None = Some v
       ∧ length (items v) = 2%nat.
Proof.
  destruct (X6_progress_items [ {| done := true; message := "a" |};
                                {| done := false; message := "b" |} ] None)
    as [_ Hitems].
  eexists. split; [reflexivity|].
  destruct (Hitems _ eq_refl) as [Hlen _]. exact Hlen.
Defined.

(** X7: in any log, an item is faded exactly when its entry is not done
    and an earlier entry is not done either.  So done items are never
    faded, and among the items that are not done only the first one stays
    unfaded.  The inline variant builds its items the same way. *)
Theorem X7_first_pending_item_unfaded
    (logs : list LogEntry) (i : nat) (log : LogEntry) :
  logs !! i = Some log →
  (faded (ProgressLog.item logs i log) = true
   ↔ done log = false
     ∧ ∃ j e, (j < i)%nat ∧ logs !! j = Some e ∧ done e = false)
  ∧ (∀ j e, logs !! j = Some e →
       done log = false → done e = false →
       faded (ProgressLog.item logs i log) = false →
       faded (ProgressLog.item logs j e) = false → i = j)
  ∧ PageGated.item logs i log = ProgressLog.item logs i log.
Proof.
  intros Hi. split_and!; [by apply item_faded| |reflexivity].
  intros j e Hj Hlog He Hfi Hfj.
  destruct (Nat.lt_trichotomy i j) as [Hlt|[Heq|Hgt]]; [|done|].
  - assert (faded (ProgressLog.item logs j e) = true) as Hcontra.
    { apply item_faded; [done|]. split; [done|]. by exists i, log. }
    congruence.
  - assert (faded (ProgressLog.item logs i log) = true) as Hcontra.
    { apply item_faded; [done|]. split; [done|]. by exists j, e. }
    congruence.
Qed.

Lemma X7_first_pending_item_unfaded_witness :
  faded (ProgressLog.item
           [ {| done := false; message := "a" |}; {| done := false; message := "b" |} ]
           1 {| done := false; message := "b" |}) = true.
Proof.
  destruct (X7_first_pending_item_unfaded
              [ {| done := false; message := "a" |}; {| done := false; message := "b" |} ]
              1 {| done := false; message := "b" |} eq_refl) as [Hfaded _].
  apply Hfaded. split; [reflexivity|].
  exists 0%nat, {| done := false; message := "a" |}.
  split_and!; [lia|reflexivity|reflexivity].
Defined.

Lemma first_pending (state : option ResearchAgentState) :
  Js.findIndex (λ log, negb (done log)) (Page.logs (Page.getStepsFromState state))
  = Z.max (Js.indexOf Page.allPhases (currentPhaseOf state)) 0.
Proof.
  pose proof (indexOf_allPhases_bound (currentPhaseOf state)) as Hk.
  set (k := Js.indexOf Page.allPhases (currentPhaseOf state)) in *.
  assert (Z.to_nat (Z.max k 0) < length (Page.logs (Page.getStepsFromState state)))%nat
    as Hlen by (rewrite logs_length, steps_length; lia).
  apply lookup_lt_is_Some_2 in Hlen as [e He].
  rewrite <- (Z2Nat.id (Z.max k 0)) by lia.
  apply (findIndex_first _ _ _ e He).
  - destruct (logs_done state _ e He) as (-> & _). fold k.
    apply negb_true_iff, Z.ltb_ge. lia.
  - intros j y Hj Hlt. destruct (logs_done state j y Hj) as (-> & _). fold k.
    apply negb_false_iff, Z.ltb_lt. lia.
Qed.

(** X8: what the page shows for a state whose phase has index [k] in the
    phase sequence (-1 outside it).  The item at index [i] carries the
    check mark iff [i < k], is faded iff [i] lies after [max k 0], so the
    item of the current phase (or the first item while idle) is the one
    active spinner, and its text is the entry's message unchanged, since no
    derived message holds a URL. *)
Theorem X8_rendered_progress
    (state : option ResearchAgentState) (c : Cells) (i : nat) (e : LogEntry) :
  Page.logs (Page.getStepsFromState state) !! i = Some e →
  ∃ v li, (Page.render state c).1 = Some v
          ∧ items v !! i = Some li
          ∧ doneIcon li
            = (Z.of_nat i <? Js.indexOf Page.allPhases (currentPhaseOf state))
          ∧ faded li
            = (Z.max (Js.indexOf Page.allPhases (currentPhaseOf state)) 0
               <? Z.of_nat i)
          ∧ text li = message e.
Proof.
  intros He. rewrite render_view.
  eexists _, (ProgressLog.item (Page.logs (Page.getStepsFromState state)) i e).
  split; [done|]. cbn [items].
  rewrite list_lookup_imap, He. split; [done|].
  destruct (logs_done state i e He) as (Hdone & _).
  split_and!.
  - done.
  - unfold ProgressLog.item. cbn [faded]. rewrite first_pending, Hdone.
    set (k := Js.indexOf Page.allPhases (currentPhaseOf state)).
    destruct (Z.ltb_spec (Z.of_nat i) k), (Z.eqb_spec (Z.of_nat i) (Z.max k 0)),
      (Z.ltb_spec (Z.max k 0) (Z.of_nat i)); simpl; try done; lia.
  - by eapply replaceUrls_step_message.
Qed.

Lemma X8_rendered_progress_witness :
  ∃ v li, (Page.render (stateAt "analyzing_information" "organizing_data")
                       (cells mounted)).1 = Some v
          ∧ items v !! 3%nat = Some li
          ∧ faded li = true.
Proof.
  destruct (X8_rendered_progress
              (stateAt "analyzing_information" "organizing_data") (cells mounted)
              3 {| done := false;
                   message := "Generating Report: Generating detailed report" |}
              eq_refl)
    as (v & li & Hv & Hli & _ & Hfaded & _).
  exists v, li. split_and!; [exact Hv|exact Hli|exact Hfaded].
Defined.

End RenderedLog.

(** ** The URL pattern and its replacement *)

Section UrlPattern.

Lemma prefix_split (p s : string) :
  String.prefix p s = true → s = p +:+ Url.dropString (String.length p) s.
Proof.
  revert s. induction p as [|a p IH]; intros s Hp; [done|].
  destruct s as [|b s]; [done|]. simpl in Hp.
  destruct (ascii_dec a b) as [->|]; [|done].
  change (String b s = String b (p +:+ Url.dropString (String.length p) s)).
  by rewrite <- IH.
Qed.

Lemma dropString_length (n : nat) (s : string) :
  String.length (Url.dropString n s) = (String.length s - n)%nat.
Proof.
  revert s. induction n as [|n IH]; intros s; simpl; [lia|].
  destruct s as [|c s]; simpl; [done|]. apply IH.
Qed.

Lemma dropString_add (a b : nat) (s : string) :
  Url.dropString (a + b) s = Url.dropString b (Url.dropString a s).
Proof.
  revert s. induction a as [|a IH]; intros s; simpl; [done|].
  destruct s as [|c s]; [by destruct b|]. apply IH.
Qed.

Lemma dropString_append (p t : string) :
  Url.dropString (String.length p) (p +:+ t) = t.
Proof. induction p as [|a p IH]; simpl; [done|]. apply IH. Qed.

Lemma substring_append (p t : string) (k : nat) :
  String.substring 0 (String.length p + k) (p +:+ t) = p +:+ String.substring 0 k t.
Proof. induction p as [|a p IH]; simpl; [done|]. by rewrite IH. Qed.

Lemma append_empty_r (s : string) : s +:+ "" = s.
Proof.
  induction s as [|a s IH]; [done|].
  change (String a (s +:+ "") = String a s). by rewrite IH.
Qed.

Lemma substring_full (s : string) : String.substring 0 (String.length s) s = s.
Proof. induction s as [|c s IH]; simpl; [done|]. by rewrite IH. Qed.

Lemma nonSpaceRun_le (s : string) : (Url.nonSpaceRun s ≤ String.length s)%nat.
Proof.
  induction s as [|c s IH]; simpl; [done|]. destruct (Url.isSpace c); lia.
Qed.

Lemma nonSpaceRun_spaceFree (s : string) :
  spaceFree (String.substring 0 (Url.nonSpaceRun s) s).
Proof.
  unfold spaceFree. induction s as [|c s IH]; simpl; [constructor|].
  destruct (Url.isSpace c) eqn:Hc; simpl; [constructor|]. by constructor.
Qed.

Lemma nonSpaceRun_stops (s : string) :
  Url.dropString (Url.nonSpaceRun s) s = ""
  ∨ ∃ c r, Url.dropString (Url.nonSpaceRun s) s = String c r
           ∧ Url.isSpace c = true.
Proof.
  induction s as [|c s IH]; simpl; [by left|].
  destruct (Url.isSpace c) eqn:Hc; simpl; [|done].
  right. by exists c, s.
Qed.

Lemma nonSpaceRun_all (s : string) :
  spaceFree s → Url.nonSpaceRun s = String.length s.
Proof.
  unfold spaceFree. induction s as [|c s IH]; simpl; [done|].
  intros Hfree. apply Forall_cons in Hfree as [-> Hfree]. by rewrite IH.
Qed.

(** A match is one of the two schemes followed by the run of code units
    up to the next whitespace, and the run is not empty. *)
Lemma matchUrl_Some (s : string) (n : nat) :
  Url.matchUrl s = Some n →
  ∃ scheme,
    (scheme = "https://" ∨ scheme = "http://")
    ∧ s = scheme +:+ Url.dropString (String.length scheme) s
    ∧ n = (String.length scheme
           + Url.nonSpaceRun (Url.dropString (String.length scheme) s))%nat
    ∧ (0 < Url.nonSpaceRun (Url.dropString (String.length scheme) s))%nat.
Proof.
  unfold Url.matchUrl. intros Hm.
  destruct (String.prefix "https://" s) eqn:Hs.
  - exists "https://". apply prefix_split in Hs.
    change (String.length "https://") with 8%nat in *.
    destruct (Url.nonSpaceRun (Url.dropString 8 s)) as [|k]; [done|].
    injection Hm as <-. split_and!; [by left|done|done|lia].
  - destruct (String.prefix "http://" s) eqn:Hp; [|done].
    exists "http://". apply prefix_split in Hp.
    change (String.length "http://") with 7%nat in *.
    destruct (Url.nonSpaceRun (Url.dropString 7 s)) as [|k]; [done|].
    injection Hm as <-. split_and!; [by right|done|done|lia].
Qed.

Lemma matchUrl_bounds (s : string) (n : nat) :
  Url.matchUrl s = Some n → (8 ≤ n ≤ String.length s)%nat.
Proof.
  intros Hm. apply matchUrl_Some in Hm as (scheme & Hscheme & Hs & -> & Hpos).
  pose proof (nonSpaceRun_le (Url.dropString (String.length scheme) s)) as Hle.
  rewrite dropString_length in Hle.
  pose proof (f_equal String.length Hs) as Hlen.
  rewrite length_append, dropString_length in Hlen.
  destruct Hscheme as [-> | ->]; simpl in *; lia.
Qed.

(** X9: a match of the URL pattern at the start of a string is "http://"
    or "https://" followed by a non-empty run of code units without
    whitespace; it spans at least 8 code units, stays inside the string and
    runs up to the end of the string or the next whitespace. *)
Theorem X9_matchUrl_shape (s : string) (n : nat) :
  Url.matchUrl s = Some n →
  (8 ≤ n ≤ String.length s)%nat
  ∧ (∃ scheme body,
       (scheme = "https://" ∨ scheme = "http://")
       ∧ String.substring 0 n s = scheme +:+ body
       ∧ body ≠ "" ∧ spaceFree body)
  ∧ (Url.dropString n s = ""
     ∨ ∃ c r, Url.dropString n s = String c r ∧ Url.isSpace c = true).
Proof.
  intros Hm. split; [by apply matchUrl_bounds|].
  apply matchUrl_Some in Hm as (scheme & Hscheme & Hs & -> & Hpos).
  set (tail := Url.dropString (String.length scheme) s) in *.
  split.
  - exists scheme, (String.substring 0 (Url.nonSpaceRun tail) tail).
    split_and!; [done| | |apply nonSpaceRun_spaceFree].
    + rewrite Hs at 1. apply substring_append.
    + intros Hempty.
      destruct (substring_prefix (Url.nonSpaceRun tail) tail) as [_ Hlen];
        [apply nonSpaceRun_le|].
      rewrite Hempty in Hlen. simpl in Hlen. lia.
  - rewrite dropString_add. fold tail. apply nonSpaceRun_stops.
Qed.

Lemma X9_matchUrl_shape_witness :
  (8 ≤ 11 ≤ String.length "http://a.bc see")%nat.
Proof.
  exact (proj1 (X9_matchUrl_shape "http://a.bc see" 11 eq_refl)).
Defined.

Lemma replaceFrom_past_end (f : string → string) (k : nat) (s : string) :
  (String.length s ≤ k)%nat → Url.replaceFrom f k s = "".
Proof.
  revert k. induction s as [|c s IH]; intros k Hk; simpl; [done|].
  simpl in Hk. destruct k as [|k]; [lia|]. apply IH. lia.
Qed.

Lemma replaceFrom_self (k : nat) (s : string) :
  Url.replaceFrom (λ u, u) k s = Url.dropString k s.
Proof.
  revert k. induction s as [|c s IH]; intros k.
  { by destruct k. }
  destruct k as [|k]; [|apply IH].
  cbn [Url.replaceFrom Url.dropString].
  destruct (Url.matchUrl (String c s)) as [n|] eqn:Hm.
  - pose proof (matchUrl_bounds _ _ Hm) as Hn.
    destruct (substring_prefix n (String c s)) as [Hsplit _]; [lia|].
    rewrite IH. destruct n as [|n]; [lia|].
    replace (S n - 1)%nat with n by lia.
    change (Url.dropString n s) with (Url.dropString (S n) (String c s)).
    by rewrite <- Hsplit.
  - by rewrite IH.
Qed.

Lemma replaceFrom_urlFree (f : string → string) (s : string) :
  urlFree s → Url.replaceFrom f 0 s = s.
Proof.
  induction s as [|c s IH]; intros Hfree; [done|].
  cbn [Url.replaceFrom].
  rewrite (Hfree 0%nat : Url.matchUrl (String c s) = None).
  rewrite IH; [done|]. intros k. apply (Hfree (S k)).
Qed.

(** X10: replacing the URLs of a message leaves a message without a URL
    as it is, whatever the replacement does; and replacing every URL by
    itself gives back the message, so the scan neither drops nor doubles
    any code unit around the matches. *)
Theorem X10_replaceUrls_keeps_other_text (f : string → string) (s : string) :
  (urlFree s → Url.replaceUrls f s = s)
  ∧ Url.replaceUrls (λ u, u) s = s.
Proof.
  split.
  - apply replaceFrom_urlFree.
  - unfold Url.replaceUrls. by rewrite replaceFrom_self.
Qed.

Lemma X10_replaceUrls_keeps_other_text_witness :
  Url.replaceUrls ProgressLog.truncateUrl "no link" = "no link".
Proof.
  apply (proj1 (X10_replaceUrls_keeps_other_text ProgressLog.truncateUrl "no link")).
  intros k. do 8 (destruct k as [|k]; [reflexivity|]). reflexivity.
Defined.

Lemma replaceFrom_length (f : string → string) (k : nat) (s : string) :
  (∀ u, String.length (f u) ≤ String.length u)%nat →
  (String.length (Url.replaceFrom f k s) ≤ String.length s - k)%nat.
Proof.
  intros Hf. revert k. induction s as [|c s IH]; intros k; [simpl; lia|].
  destruct k as [|k]; [|apply IH].
  cbn [Url.replaceFrom].
  destruct (Url.matchUrl (String c s)) as [n|] eqn:Hm.
  - pose proof (matchUrl_bounds _ _ Hm) as Hn.
    destruct (substring_prefix n (String c s)) as [_ Hlen]; [lia|].
    rewrite length_append. specialize (IH (n - 1)%nat).
    specialize (Hf (String.substring 0 n (String c s))).
    rewrite Hlen in Hf. cbn [String.length] in *. lia.
  - specialize (IH 0%nat). cbn [String.length]. lia.
Qed.

(** X11: the text shown for a message is never longer than the message:
    truncating the URLs inside it can only shorten it.  The inline variant
    shows the same text. *)
Theorem X11_shown_text_not_longer (logs : list LogEntry) (i : nat) (log : LogEntry) :
  (String.length (text (ProgressLog.item logs i log))
   ≤ String.length (message log))%nat
  ∧ text (PageGated.item logs i log) = text (ProgressLog.item logs i log).
Proof.
  split; [|reflexivity]. cbn [ProgressLog.item text]. unfold Url.replaceUrls.
  pose proof (replaceFrom_length ProgressLog.truncateUrl 0 (message log)) as Hlen.
  rewrite Nat.sub_0_r in Hlen. apply Hlen. intros u.
  destruct (decide (String.length u ≤ 50)%nat) as [Hle|Hgt].
  - by rewrite truncateUrl_short.
  - destruct (truncateUrl_long u) as [_ ->]; lia.
Qed.

(** X12: a message that is one URL, a scheme followed by a non-empty run
    without whitespace, is handed to the replacement as a whole; shown in
    the progress log it is its truncation and has at most 50 code units. *)
Theorem X12_whole_url_message (f : string → string) (scheme body : string) :
  scheme = "https://" ∨ scheme = "http://" →
  body ≠ "" → spaceFree body →
  Url.matchUrl (scheme +:+ body) = Some (String.length (scheme +:+ body))
  ∧ Url.replaceUrls f (scheme +:+ body) = f (scheme +:+ body)
  ∧ (String.length (Url.replaceUrls ProgressLog.truncateUrl (scheme +:+ body))
     ≤ 50)%nat.
Proof.
  intros Hscheme Hbody Hfree.
  assert (Url.matchUrl (scheme +:+ body) = Some (String.length (scheme +:+ body)))
    as Hm.
  { pose proof (nonSpaceRun_all body Hfree) as Hrun.
    destruct body as [|b body]; [done|].
    destruct Hscheme as [-> | ->]; unfold Url.matchUrl.
    - change (String.prefix "https://" ("https://" +:+ String b body)) with true.
      cbv iota. change (Url.dropString 8 ("https://" +:+ String b body))
        with (String b body).
      rewrite Hrun. reflexivity.
    - change (String.prefix "https://" ("http://" +:+ String b body)) with false.
      change (String.prefix "http://" ("http://" +:+ String b body)) with true.
      cbv iota. change (Url.dropString 7 ("http://" +:+ String b body))
        with (String b body).
      rewrite Hrun. reflexivity. }
  assert (∀ g, Url.replaceUrls g (scheme +:+ body) = g (scheme +:+ body)) as Hwhole.
  { intros g. unfold Url.replaceUrls.
    destruct (scheme +:+ body) as [|c rest] eqn:Hs.
    { destruct Hscheme as [-> | ->]; discriminate. }
    cbn [Url.replaceFrom]. rewrite Hm, substring_full.
    rewrite replaceFrom_past_end by (simpl; lia).
    apply append_empty_r. }
  split_and!; [done|apply Hwhole|].
  rewrite Hwhole.
  destruct (decide (String.length (scheme +:+ body) ≤ 50)%nat) as [Hle|Hgt].
  - by rewrite truncateUrl_short.
  - destruct (truncateUrl_long (scheme +:+ body)) as [_ ->]; lia.
Qed.

Lemma X12_whole_url_message_witness :
  Url.replaceUrls ProgressLog.truncateUrl ("https://" +:+ "example.org/a")
  = ProgressLog.truncateUrl ("https://" +:+ "example.org/a").
Proof.
  refine (proj1 (proj2 (X12_whole_url_message ProgressLog.truncateUrl
                          "https://" "example.org/a" _ _ _))).
  - by left.
  - discriminate.
  - unfold spaceFree. simpl. repeat (constructor; [reflexivity|]). constructor.
Defined.

End UrlPattern.

(** ** The in-progress flag and the pending stop *)

Section FlagAndStop.

(** X13: the inline variant never clears the in-progress flag while
    rendering.  A render with status "inProgress" or "complete" sets the
    flag and shows the log; any other status leaves the cells as they are.
    The later test for "complete", which would clear the flag, is never
    reached. *)
Theorem X13_gated_render_flag (runStatus : string) (c : Cells) :
  (PageGated.render runStatus c).2
  = (if String.eqb runStatus "inProgress" || String.eqb runStatus "complete"
     then setInProgress true c else c)
  ∧ (isResearchInProgress (PageGated.render runStatus c).2 = false →
     isResearchInProgress c = false)
  ∧ (runStatus = "complete" →
     isResearchInProgress (PageGated.render runStatus c).2 = true
     ∧ ∃ v, (PageGated.render runStatus c).1 = Ok (Some v)).
Proof.
  assert ((PageGated.render runStatus c).2
          = (if String.eqb runStatus "inProgress" || String.eqb runStatus "complete"
             then setInProgress true c else c)) as Hcells.
  { unfold PageGated.render.
    destruct (String.eqb runStatus "inProgress") eqn:Hin; simpl; [done|].
    by destruct (String.eqb runStatus "complete"). }
  split_and!; [done| |].
  - rewrite Hcells.
    by destruct (String.eqb runStatus "inProgress" || String.eqb runStatus "complete").
  - intros ->. split; [by rewrite Hcells|].
    rewrite render_gated_shown by (by right). rewrite render_view. by eexists.
Qed.

Lemma X13_gated_render_flag_witness :
  isResearchInProgress (PageGated.render "complete" (cells mounted)).2 = true.
Proof.
  destruct (X13_gated_render_flag "complete" (cells mounted)) as (_ & _ & Hcomplete).
  by destruct (Hcomplete eq_refl).
Defined.

Lemma react_stops (rt : Runtime) (t : Z) (ev : PageEvent) :
  stopsOnly rt → clock rt ≤ t →
  stopsOnly (react rt (t, ev))
  ∧ clock (react rt (t, ev)) = t
  ∧ stopTrace (react rt (t, ev))
    = stopTrace rt ++ (if isTerminal ev then [t + 1000] else []).
Proof.
  intros Hrt Hle. destruct ev as [name|state].
  - apply (deliver_stops rt t name Hrt Hle).
  - destruct (advanceTo_stops t rt Hrt) as ([Hcb Hdue] & Htrace & Hclock).
    rewrite Z.max_r in Hclock by done.
    unfold react. simpl. rewrite app_nil_r. split_and!; [by split|done|].
    by rewrite <- Htrace.
Qed.

Lemma session_stops (evs : list (Z * PageEvent)) (rt : Runtime) :
  stopsOnly rt →
  StronglySorted Z.le evs.*1 → Forall (λ t, clock rt ≤ t) evs.*1 →
  stopsOnly (session evs rt)
  ∧ stopTrace (session evs rt)
    = stopTrace rt ++ ((λ t, t + 1000) <$> terminalTimes evs)
  ∧ (∀ T, Forall (λ t, t + 1000 ≤ T) evs.*1 → clock rt + 1000 ≤ T →
          clock (session evs rt) + 1000 ≤ T).
Proof.
  revert rt. induction evs as [|[t ev] evs IH]; intros rt Hrt Hsorted Hclock.
  { simpl. unfold terminalTimes. simpl. by rewrite app_nil_r. }
  simpl in Hsorted, Hclock.
  apply StronglySorted_inv in Hsorted as [Hsorted Hhead].
  apply Forall_cons in Hclock as [Ht Hclock].
  destruct (react_stops rt t ev Hrt Ht) as (Hrt' & Hclock' & Htrace').
  unfold session. simpl. fold (session evs (react rt (t, ev))).
  destruct (IH (react rt (t, ev)) Hrt' Hsorted) as (Hinv & Htrace & Hlast).
  { by rewrite Hclock'. }
  split_and!; [done| |].
  - rewrite Htrace, Htrace', <- app_assoc. f_equal.
    unfold terminalTimes. rewrite filter_cons. simpl.
    destruct (isTerminal ev).
    + by rewrite decide_True.
    + by rewrite decide_False.
  - intros T HT _. apply Forall_cons in HT as [HtT HT].
    apply Hlast; [done|]. by rewrite Hclock'.
Qed.

Lemma runDue_clears_flag (t : Z) (q : list (Z * Callback)) (c : Cells) :
  Forall isStopLater q → Forall (λ tc, tc.1 ≤ t) q → q ≠ [] →
  isResearchInProgress (runDue t q c).2 = false.
Proof.
  revert c. induction q as [|[d cb] q IH]; intros c Hcb Hdue Hne; [done|].
  apply Forall_cons in Hcb as [Hstop Hcb]. apply Forall_cons in Hdue as [Hd Hdue].
  unfold isStopLater in Hstop. simpl in Hstop, Hd. subst cb. simpl.
  replace (d <=? t) with true by (symmetry; apply Z.leb_le; lia).
  destruct q as [|tc q]; [done|]. by apply IH.
Qed.

(** X14: a render never cancels a pending stop.  In any session of node
    events and renders taken in order of arrival, once the delays have
    elapsed the stop operation has been called 1000 ms after every
    terminal-node event, also when the page rendered again in between, for
    instance because a new run had started; and a stop still pending at the
    end of the session clears the in-progress flag when it fires, whatever
    was rendered before. *)
Theorem X14_render_keeps_pending_stop (evs : list (Z * PageEvent)) (T : Z) :
  StronglySorted Z.le evs.*1 →
  Forall (λ t, 0 ≤ t) evs.*1 →
  Forall (λ t, t + 1000 ≤ T) evs.*1 →
  1000 ≤ T →
  stopCalls (cells (advanceTo T (session evs mounted)))
  = (λ t, t + 1000) <$> terminalTimes evs
  ∧ timers (advanceTo T (session evs mounted)) = []
  ∧ (timers (session evs mounted) ≠ [] →
     isResearchInProgress (cells (advanceTo T (session evs mounted))) = false).
Proof.
  intros Hsorted Hpos Hlate HT.
  assert (stopsOnly mounted) as Hm by (split; simpl; constructor).
  destruct (session_stops evs mounted Hm Hsorted Hpos) as ([Hcb Hdue] & Htrace & Hlast).
  specialize (Hlast T Hlate HT).
  assert (timers (advanceTo T (session evs mounted)) = []) as Hempty.
  { unfold advanceTo.
    pose proof (runDue_all T (timers (session evs mounted))
                  (cells (session evs mounted))) as Hall.
    destruct (runDue T _ _) as [q c]. simpl in *. apply Hall.
    eapply Forall_impl; [exact Hdue|]. simpl. intros tc Htc. lia. }
  split_and!; [|done|].
  - destruct (advanceTo_stops T (session evs mounted)) as (_ & Hsame & _); [by split|].
    unfold stopTrace in Hsame at 1. rewrite Hempty, app_nil_r in Hsame.
    by rewrite Hsame, Htrace.
  - intros Hpending. unfold advanceTo.
    pose proof (runDue_clears_flag T (timers (session evs mounted))
                  (cells (session evs mounted)) Hcb) as Hflag.
    destruct (runDue T _ _) as [q c]. simpl in *. apply Hflag; [|done].
    eapply Forall_impl; [exact Hdue|]. simpl. intros tc Htc. lia.
Qed.

Lemma X14_render_keeps_pending_stop_witness :
  stopCalls (cells (advanceTo 1500
    (session [(0, NodeArrived "__end__");
              (400, Rerendered (stateAt "initialized" "not_started"))] mounted)))
  = [1000]
  ∧ isResearchInProgress (cells (advanceTo 1500
      (session [(0, NodeArrived "__end__");
                (400, Rerendered (stateAt "initialized" "not_started"))] mounted)))
    = false.
Proof.
  destruct (X14_render_keeps_pending_stop
              [(0, NodeArrived "__end__");
               (400, Rerendered (stateAt "initialized" "not_started"))]
              1500) as (Hcalls & _ & Hflag).
  - repeat (constructor; simpl; try lia).
  - repeat (constructor; simpl; try lia).
  - repeat (constructor; simpl; try lia).
  - lia.
  - split; [exact Hcalls|]. apply Hflag. discriminate.
Defined.

End FlagAndStop.

(** ** The cards of the report presenter *)

Section Cards.

(** The whole view, read off the query, the report and the sources. *)
Lemma ReportCanvas_view (state : option ResearchAgentState) (running : bool) :
  Canvas.ReportCanvas state running
  = Ok {| Canvas.questionCard :=
            if Canvas.truthyOpt (state ?. research ?. query)
            then state ?. research ?. query else None;
          Canvas.statusCard :=
            running && negb (Canvas.truthyOpt (state ?. processing ?. report));
          Canvas.reportCard :=
            if Canvas.truthyOpt (state ?. processing ?. report)
            then Canvas.Markdown (default "" (state ?. processing ?. report))
            else Canvas.Placeholder
                   (if running then "Generating Report" else "Ready to Research")
                   (if running
                    then "Your research report will appear here once the analysis is complete."
                    else "Ask me to research any topic and I'll generate a comprehensive, well-structured report for you.")
                   (match state ?. research ?. sources with
                    | Some (x :: l) =>
                        Some (Js.numberToString (Z.of_nat (length (x :: l)))
                              +:+ " source"
                              +:+ pluralSuffix (Some (Z.of_nat (length (x :: l))))
                              +:+ " found")
                    | _ => None
                    end);
          Canvas.sourcesCard :=
            match state ?. research ?. sources with
            | Some (x :: l) =>
                Some {| Canvas.countText :=
                          Js.numberToString (Z.of_nat (length (x :: l)))
                          +:+ " source"
                          +:+ pluralSuffix (Some (Z.of_nat (length (x :: l))))
                          +:+ " used in this research";
                        Canvas.entries := imap Canvas.sourceItem (x :: l) |}
            | _ => None
            end |}.
Proof.
  unfold Canvas.ReportCanvas.
  destruct state as [s|]; [|reflexivity]. simpl.
  destruct (research s) as [r|]; [|reflexivity]. simpl.
  destruct (query r) as [[|a q]|], (sources r) as [[|x l]|]; reflexivity.
Qed.

Lemma pluralSuffix_length (n : nat) :
  pluralSuffix (Some (Z.of_nat n)) = if decide (n = 1%nat) then "" else "s".
Proof.
  rewrite pluralSuffix_spec.
  destruct (decide (Z.of_nat n = 1)), (decide (n = 1%nat)); try done; lia.
Qed.

(** X15: the sources card is shown exactly when the state holds at least
    one source.  It lists one entry per source, in order and numbered from
    1, with the title as link text over the source's URL, the URL as text,
    and the snippet only when it is a non-empty string; its heading counts
    the sources and says "source" for one and "sources" otherwise. *)
Theorem X15_sources_card
    (state : option ResearchAgentState) (running : bool) (l : list Source) :
  state ?. research ?. sources = Some l →
  ∃ v, Canvas.ReportCanvas state running = Ok v
       ∧ (Canvas.sourcesCard v = None ↔ l = [])
       ∧ ∀ card, Canvas.sourcesCard v = Some card →
           Canvas.countText card
           = Js.numberToString (Z.of_nat (length l)) +:+ " source"
             +:+ (if decide (length l = 1%nat) then "" else "s")
             +:+ " used in this research"
           ∧ length (Canvas.entries card) = length l
           ∧ ∀ i src, l !! i = Some src →
               ∃ it, Canvas.entries card !! i = Some it
                     ∧ Canvas.number it = Z.of_nat i + 1
                     ∧ Canvas.linkText it = title src
                     ∧ Canvas.href it = url src
                     ∧ Canvas.urlText it = url src
                     ∧ Canvas.snippetText it
                       = match snippet src with
                         | Some (String a t) => Some (String a t)
                         | _ => None
                         end.
Proof.
  intros Hl. rewrite ReportCanvas_view, Hl. eexists. split; [reflexivity|].
  cbn [Canvas.sourcesCard]. destruct l as [|x l]; [done|]. split; [done|].
  intros card Hcard. apply (inj Some) in Hcard as <-.
  cbn [Canvas.countText Canvas.entries].
  rewrite pluralSuffix_length, length_imap. split_and!; [done..|].
  intros i src Hi. eexists. rewrite list_lookup_imap, Hi.
  split; [reflexivity|]. unfold Canvas.sourceItem. simpl.
  split_and!; [done..|]. by destruct (snippet src) as [[|a t]|].
Qed.

Lemma X15_sources_card_witness :
  ∃ v, Canvas.ReportCanvas
         (Some {| status := None;
                  research := Some {| query := None; stage := None;
                                      sources_found := None;
                                      sources := Some [ {| title := "A";
                                                           url := "http://x.com";
                                                           snippet := None |} ] |};
                  processing := None |})
         false = Ok v
       ∧ (Canvas.sourcesCard v = None ↔
          [ {| title := "A"; url := "http://x.com"; snippet := None |} ] = []).
Proof.
  destruct (X15_sources_card
              (Some {| status := None;
                       research := Some {| query := None; stage := None;
                                           sources_found := None;
                                           sources := Some [ {| title := "A";
                                                                url := "http://x.com";
                                                                snippet := None |} ] |};
                       processing := None |})
              false
              [ {| title := "A"; url := "http://x.com"; snippet := None |} ]
              eq_refl) as (v & Hv & Hshown & _).
  exists v. split; [exact Hv|exact Hshown].
Defined.

(** X16: the status card "Research in Progress" is shown exactly when the
    presenter is running and shows the placeholder, which then reads
    "Generating Report"; it never appears beside a report body, and a
    report body is never empty. *)
Theorem X16_status_card (state : option ResearchAgentState) (running : bool) :
  ∃ v, Canvas.ReportCanvas state running = Ok v
       ∧ (Canvas.statusCard v = true
          ↔ running = true
            ∧ ∃ m badge,
                Canvas.reportCard v = Canvas.Placeholder "Generating Report" m badge)
       ∧ (∀ body, Canvas.reportCard v = Canvas.Markdown body →
                  Canvas.statusCard v = false
                  ∧ body ≠ ""
                  ∧ state ?. processing ?. report = Some body).
Proof.
  rewrite ReportCanvas_view. eexists. split; [reflexivity|].
  cbn [Canvas.statusCard Canvas.reportCard].
  destruct (state ?. processing ?. report) as [[|a r]|]; simpl.
  - split; [|done]. destruct running; simpl; [|by split; [|intros [? _]]].
    split; [|done]. intros _. split; [done|]. by eexists _, _.
  - split; [rewrite andb_false_r; split; [done|by intros (_ & ? & ? & ?)]|].
    intros body [= <-]. by rewrite andb_false_r.
  - split; [|done]. destruct running; simpl; [|by split; [|intros [? _]]].
    split; [|done]. intros _. split; [done|]. by eexists _, _.
Qed.

Lemma X16_status_card_witness :
  ∃ v, Canvas.ReportCanvas None true = Ok v ∧ Canvas.statusCard v = true.
Proof.
  destruct (X16_status_card None true) as (v & Hv & Hstatus & _).
  exists v. split; [exact Hv|]. apply Hstatus. split; [reflexivity|].
  injection Hv as <-. by eexists _, _.
Defined.

(** X17: the badge inside the placeholder and the sources card count the
    same list: with the placeholder on screen the badge is shown exactly
    when the sources card is, it reads "n source found" for one source and
    "n sources found" otherwise, and neither depends on [sources_found]. *)
Theorem X17_placeholder_badge
    (state : option ResearchAgentState) (running : bool)
    (h m : string) (badge : option string) :
  ∃ v, Canvas.ReportCanvas state running = Ok v
       ∧ (Canvas.reportCard v = Canvas.Placeholder h m badge →
          (badge = None ↔ Canvas.sourcesCard v = None)
          ∧ ∀ l, state ?. research ?. sources = Some l → l ≠ [] →
              badge = Some (Js.numberToString (Z.of_nat (length l)) +:+ " source"
                            +:+ (if decide (length l = 1%nat) then "" else "s")
                            +:+ " found")).
Proof.
  rewrite ReportCanvas_view. eexists. split; [reflexivity|].
  cbn [Canvas.reportCard Canvas.sourcesCard].
  destruct (Canvas.truthyOpt (state ?. processing ?. report)); [done|].
  destruct (state ?. research ?. sources) as [[|x l]|]; intros Hcard.
  - assert (badge = None) as -> by congruence.
    split; [done|]. intros l Hl Hne. congruence.
  - assert (badge
            = Some (Js.numberToString (Z.of_nat (length (x :: l))) +:+ " source"
                    +:+ pluralSuffix (Some (Z.of_nat (length (x :: l))))
                    +:+ " found")) as -> by congruence.
    split; [done|]. intros l' Hl _.
    assert (l' = x :: l) as -> by congruence.
    by rewrite pluralSuffix_length.
  - assert (badge = None) as -> by congruence.
    split; [done|]. intros l Hl. congruence.
Qed.

Lemma X17_placeholder_badge_witness :
  ∃ v, Canvas.ReportCanvas
         (Some {| status := None;
                  research := Some {| query := None; stage := None;
                                      sources_found := Some 7;
                                      sources := Some [ {| title := "A";
                                                           url := "http://x.com";
                                                           snippet := None |} ] |};
                  processing := None |})
         true = Ok v
       ∧ (Some "1 source found" = None ↔ Canvas.sourcesCard v = None).
Proof.
  destruct (X17_placeholder_badge
              (Some {| status := None;
                       research := Some {| query := None; stage := None;
                                           sources_found := Some 7;
                                           sources := Some [ {| title := "A";
                                                                url := "http://x.com";
                                                                snippet := None |} ] |};
                       processing := None |})
              true "Generating Report"
              "Your research report will appear here once the analysis is complete."
              (Some "1 source found")) as (v & Hv & Hbadge).
  exists v. split; [exact Hv|].
  apply Hbadge. injection Hv as <-. reflexivity.
Defined.

(** X18: the presenter reads the query, the report and the sources and
    nothing else: two states that agree on these three give the same view,
    whatever their phase, stage and [sources_found].  The question card
    shows the query exactly when it is a non-empty string. *)
Theorem X18_presenter_reads_three_fields
    (s1 s2 : option ResearchAgentState) (running : bool) :
  s1 ?. research ?. query = s2 ?. research ?. query →
  s1 ?. processing ?. report = s2 ?. processing ?. report →
  s1 ?. research ?. sources = s2 ?. research ?. sources →
  Canvas.ReportCanvas s1 running = Canvas.ReportCanvas s2 running
  ∧ ∃ v, Canvas.ReportCanvas s1 running = Ok v
         ∧ ∀ q, Canvas.questionCard v = Some q
                ↔ s1 ?. research ?. query = Some q ∧ q ≠ "".
Proof.
  intros Hq Hr Hs. split.
  - by rewrite !ReportCanvas_view, Hq, Hr, Hs.
  - rewrite ReportCanvas_view. eexists. split; [reflexivity|].
    cbn [Canvas.questionCard]. intros q.
    destruct (s1 ?. research ?. query) as [[|a t]|]; simpl.
    + split; [done|]. by intros [[= <-] ?].
    + split; [by intros [= <-]|by intros [? _]].
    + split; [done|]. by intros [? _].
Qed.

Lemma X18_presenter_reads_three_fields_witness :
  Canvas.ReportCanvas (stateAt "idle" "not_started") true
  = Canvas.ReportCanvas (stateAt "completed" "report_complete") true.
Proof.
  exact (proj1 (X18_presenter_reads_three_fields
                  (stateAt "idle" "not_started")
                  (stateAt "completed" "report_complete") true
                  eq_refl eq_refl eq_refl)).
Defined.

End Cards.

(** ** The describer away from the inherited names *)

Section DescriberDomain.

(** X19: for every phase that is not a name inherited from the object
    prototype the describer returns a non-empty string: the stored text for
    the six phases of the literal, and "Processing..." for every other
    phase, whatever the stage.  The texts for idle and initialized do not
    depend on the stage.  Both page variants describe alike. *)
Theorem X19_describer_strings (phase stage : string) :
  phase ∉ Js.objectPrototypeKeys →
  ∃ d, Page.getStepDetails phase stage = Js.VString d
       ∧ d ≠ ""
       ∧ (phase ∉ mappedPhases → d = "Processing...")
       ∧ (phase = "idle" ∨ phase = "initialized" →
          ∀ other, Page.getStepDetails phase other = Js.VString d)
       ∧ PageGated.getStepDetails phase stage = Js.VString d.
Proof.
  intros Hproto.
  destruct (decide (phase ∈ mappedPhases)) as [Hin|Hout].
  - unfold mappedPhases in Hin. apply elem_of_cons in Hin as [->|Hin].
    + exists "Getting ready...". split_and!; try done.
      intros Hnot. exfalso. apply Hnot. by eapply (list_elem_of_lookup_2 _ 0%nat).
    + exists (stepText phase stage).
      pose proof (getStepDetails_step phase stage Hin) as Hd.
      split_and!; [done| | | |done].
      * pose proof (stepText_nonempty phase stage). by destruct (stepText _ _).
      * intros Hnot. exfalso. apply Hnot. unfold mappedPhases.
        apply elem_of_cons. by right.
      * intros [->| ->]; [|done].
        exfalso. unfold Page.allPhases in Hin.
        repeat (apply elem_of_cons in Hin as [Hin|Hin]; [discriminate|]).
        by apply elem_of_nil in Hin.
  - exists "Processing...".
    pose proof (getStepDetails_unmapped phase stage Hout Hproto) as Hd.
    split_and!; [done|done|done| |done].
    intros [->| ->]; exfalso; apply Hout.
    + by eapply (list_elem_of_lookup_2 _ 0%nat).
    + by eapply (list_elem_of_lookup_2 _ 1%nat).
Qed.

Lemma X19_describer_strings_witness :
  ∃ d, Page.getStepDetails "paused" "searching" = Js.VString d ∧ d = "Processing...".
Proof.
  destruct (X19_describer_strings "paused" "searching") as (d & Hd & _ & Hdefault & _).
  - by apply (bool_decide_unpack _).
  - exists d. split; [exact Hd|]. apply Hdefault. by apply (bool_decide_unpack _).
Defined.

End DescriberDomain.
